(** * Campus Shield: the Flask application [app.py] and its specification

    The request handlers of [app.py] are embedded as computations in a
    state-and-exception monad over the application's world: the four
    database tables, the login session, the flashed messages and the
    ordered record of calls that leave the process (file system, SMTP,
    logger).  The calls whose outcome the program cannot decide (the
    file write, the SMTP delivery, the clock, the salt) are answered by
    an environment given to each handler.

    Embedded routes: [/register], [/login], [/logout], [/complaint],
    [/polls] and [/polls/<id>/results].  Library behaviour the handlers
    rely on (Flask-Bcrypt, SQLite's INTEGER affinity) is a parameter of
    the handlers that use it. *)

From stdpp Require Import base option list gmap fin_maps strings pretty.
From Stdlib Require Import ZArith Lia Ascii.

Local Open Scope Z_scope.
Local Open Scope string_scope.

(** ** Values of a column with INTEGER affinity *)

(** [Vote.poll_id] is declared [db.Integer], but the vote handler binds
    the form's text to it.  SQLite keeps an integer when the text reads
    as a number and the text itself otherwise. *)
Inductive sqlval : Type :=
| SqlInt (z : Z)
| SqlText (s : string).

#[global] Instance sqlval_eq_dec : EqDecision sqlval.
Proof. solve_decision. Defined.

(** ** Models *)

Module User.
Record t : Type := mk {
  id : Z;
  name : string;
  email : string;
  password : string
}.
End User.

Module Complaint.
(** A stored row.  [subject] and [details] are [nullable=False]. *)
Record t : Type := mk {
  id : Z;
  student_id : option Z;
  subject : string;
  severity : option string;
  details : string;
  anonymous : bool;
  proof_file : option string;
  status : string;
  date : string
}.

(** The keyword arguments of [Complaint(...)]: Python values, any of
    which may be [None]. *)
Record init : Type := new {
  init_student_id : option Z;
  init_subject : option string;
  init_severity : option string;
  init_details : string;
  init_anonymous : bool;
  init_proof_file : option string
}.
End Complaint.

Module Poll.
Record t : Type := mk {
  id : Z;
  question : string;
  option1 : string;
  option2 : string;
  option3 : string;
  option4 : string
}.
End Poll.

Module Vote.
Record t : Type := mk {
  id : Z;
  poll_id : sqlval;
  option : string;
  user_id : Z
}.
End Vote.

(** ** Requests and responses *)

Inductive Method : Type := GET | POST.

(** An uploaded part: the client's file name and the bytes. *)
Record FileStorage : Type := {
  filename : string;
  stream : string
}.

Record Request : Type := {
  method : Method;
  form : gmap string string;
  files : gmap string FileStorage
}.

(** The targets of [url_for]. *)
Inductive Endpoint : Type :=
| ep_register
| ep_login
| ep_awareness
| ep_track (complaint_id : Z)
| ep_poll_results (poll_id : string).

Inductive Response : Type :=
| Render (template : string)
| RenderPolls (polls : list Poll.t)
| RenderResults (poll : Poll.t) (results : gmap string Z)
| Redirect (target : Endpoint)
| Abort (code : Z)
| Uncaught (exc : string) (msg : string).

(** ** The world a request runs in *)

(** A call that leaves the process. *)
Inductive Effect : Type :=
| Makedirs (path : string)
| Save (path : string) (data : string)
| Insert (table : string) (rowid : Z)
| Send (subject : string) (sender : string) (recipients : list string)
       (body : string)
| Log (level : string) (text : string).

(** What the handlers cannot decide themselves. *)
Record Env : Type := {
  environ : gmap string string;
  (** [Some e]: the call raises an exception whose text is [e]. *)
  raises : Effect → option string;
  utcnow : string;
  gensalt : string
}.

Record World : Type := mkWorld {
  users : list User.t;
  complaints : list Complaint.t;
  polls_table : list Poll.t;
  votes : list Vote.t;
  (** the user id kept by Flask-Login in the session cookie *)
  session : option Z;
  (** [flash(message, category)], oldest first *)
  flashes : list (string * string);
  (** every call that left the process, oldest first, with the text of
      the exception it raised, if any *)
  trace : list (Effect * option string)
}.

Inductive Exception : Type :=
| BadRequestKeyError (key : string)
| NotFound
| IntegrityError (msg : string)
| ValueError (msg : string)
| EnvError (msg : string).

(** ** The handler monad: state and exceptions *)

Definition M (A : Type) : Type := World → (Exception + A) * World.

#[global] Instance M_ret : MRet M := λ A x w, (inr x, w).
#[global] Instance M_bind : MBind M := λ A B f m w,
  match m w with
  | (inr x, w') => f x w'
  | (inl e, w') => (inl e, w')
  end.

Definition raise {A} (e : Exception) : M A := λ w, (inl e, w).
Definition gets {A} (f : World → A) : M A := λ w, (inr (f w), w).
Definition modify (f : World → World) : M unit := λ w, (inr tt, f w).

(** [try: body except Exception as e: handler(str(e))]. *)
Definition exception_text (e : Exception) : string :=
  match e with
  | BadRequestKeyError k => "400 Bad Request: " +:+ k
  | NotFound => "404 Not Found"
  | IntegrityError m | ValueError m | EnvError m => m
  end.

Definition try_except {A} (body : M A) (handler : string → M A) : M A :=
  λ w, match body w with
       | (inr x, w') => (inr x, w')
       | (inl e, w') => handler (exception_text e) w'
       end.

(** What Flask answers when a handler returns or raises. *)
Definition respond (m : M Response) (w : World) : Response * World :=
  match m w with
  | (inr r, w') => (r, w')
  | (inl (BadRequestKeyError _), w') => (Abort 400, w')
  | (inl NotFound, w') => (Abort 404, w')
  | (inl (IntegrityError msg), w') => (Uncaught "IntegrityError" msg, w')
  | (inl (ValueError msg), w') => (Uncaught "ValueError" msg, w')
  | (inl (EnvError msg), w') => (Uncaught "Exception" msg, w')
  end.

(** ** Primitive operations *)

Definition set_trace (t : list (Effect * option string)) (w : World) : World :=
  mkWorld (users w) (complaints w) (polls_table w) (votes w) (session w)
          (flashes w) t.
Definition set_flashes (f : list (string * string)) (w : World) : World :=
  mkWorld (users w) (complaints w) (polls_table w) (votes w) (session w)
          f (trace w).
Definition set_session (s : option Z) (w : World) : World :=
  mkWorld (users w) (complaints w) (polls_table w) (votes w) s
          (flashes w) (trace w).
Definition set_users (l : list User.t) (w : World) : World :=
  mkWorld l (complaints w) (polls_table w) (votes w) (session w)
          (flashes w) (trace w).
Definition set_complaints (l : list Complaint.t) (w : World) : World :=
  mkWorld (users w) l (polls_table w) (votes w) (session w)
          (flashes w) (trace w).
Definition set_polls (l : list Poll.t) (w : World) : World :=
  mkWorld (users w) (complaints w) l (votes w) (session w)
          (flashes w) (trace w).
Definition set_votes (l : list Vote.t) (w : World) : World :=
  mkWorld (users w) (complaints w) (polls_table w) l (session w)
          (flashes w) (trace w).

(** A call answered by the environment: recorded, then raised if the
    environment says so. *)
Definition perform (env : Env) (eff : Effect) : M unit :=
  λ w, let out := raises env eff in
       let w' := set_trace (trace w ++ [(eff, out)]) w in
       match out with
       | Some e => (inl (EnvError e), w')
       | None => (inr tt, w')
       end.

(** A call that cannot raise ([app.logger], a committed INSERT). *)
Definition record (eff : Effect) : M unit :=
  modify (λ w, set_trace (trace w ++ [(eff, None)]) w).

Definition flash (message category : string) : M unit :=
  modify (λ w, set_flashes (flashes w ++ [(category, message)]) w).

(** [request.form[key]]: a missing key is a 400 response. *)
Definition form_item (request : Request) (key : string) : M string :=
  match form request !! key with
  | Some v => mret v
  | None => raise (BadRequestKeyError key)
  end.

(** [request.form.get(key)]. *)
Definition form_get (request : Request) (key : string) : option string :=
  form request !! key.

(** [os.environ.get(key, default)]. *)
Definition environ_get (env : Env) (key dflt : string) : string :=
  default dflt (environ env !! key).

(** ** Python and library helpers *)

(** [str(x)] of a value that may be [None]. *)
Definition py_str (o : option string) : string := default "None" o.

(** Truth value of a value that is [None] or a string. *)
Definition py_bool (o : option string) : bool :=
  match o with
  | Some s => bool_decide (s ≠ EmptyString)
  | None => false
  end.

Fixpoint endswith_sep (s : string) : bool :=
  match s with
  | EmptyString => false
  | String c EmptyString => bool_decide (c = "/"%char)
  | String _ s' => endswith_sep s'
  end.

(** [os.path.join(a, b)] on POSIX. *)
Definition path_join (a b : string) : string :=
  if String.prefix "/" b then b
  else if bool_decide (a = EmptyString) || endswith_sep a then a +:+ b
  else a +:+ "/" +:+ b.

(** [Query.first()]. *)
Definition first {A} (rows : list A) : option A := head rows.

(** The rowid SQLite gives a new row of an INTEGER PRIMARY KEY table:
    one more than the largest in the table. *)
Definition next_rowid (ids : list Z) : Z := 1 + foldr Z.max 0 ids.

(** ** Configuration *)

Definition GMAIL_USER : string := "janeebkonami@gmail.com".
Definition MAIL_SERVER : string := "smtp.gmail.com".
Definition MAIL_PORT : Z := 587.
Definition MAIL_USERNAME (env : Env) : string :=
  environ_get env "MAIL_USERNAME" GMAIL_USER.
Definition MAIL_DEFAULT_SENDER (env : Env) : string :=
  environ_get env "MAIL_USERNAME" GMAIL_USER.
Definition ADMIN_EMAIL (env : Env) : string :=
  environ_get env "ADMIN_EMAIL" "janeebkonami@gmail.com".

(** ** The database session *)

(** [db.session.add(User(...)); db.session.commit()]; [email] is
    [unique=True]. *)
Definition add_user (name email password : string) : M User.t :=
  us ← gets users;
  if decide (email ∈ User.email <$> us)
  then raise (IntegrityError "UNIQUE constraint failed: user.email")
  else
    let u := User.mk (next_rowid (User.id <$> us)) name email password in
    modify (set_users (us ++ [u]));;
    record (Insert "user" (User.id u));;
    mret u.

(** [db.session.add(Complaint(...)); db.session.commit()].  The mapper
    leaves a [None] attribute out of the INSERT: a column with a
    default takes the default, and one without stores NULL, which
    [nullable=False] refuses. *)
Definition add_complaint (env : Env) (c : Complaint.init) : M Complaint.t :=
  cs ← gets complaints;
  match Complaint.init_subject c with
  | None =>
      raise (IntegrityError "NOT NULL constraint failed: complaint.subject")
  | Some subject =>
      let row :=
        Complaint.mk (next_rowid (Complaint.id <$> cs))
                     (Complaint.init_student_id c)
                     subject
                     (Some (default "Medium" (Complaint.init_severity c)))
                     (Complaint.init_details c)
                     (Complaint.init_anonymous c)
                     (Complaint.init_proof_file c)
                     "Pending"
                     (utcnow env) in
      modify (set_complaints (cs ++ [row]));;
      record (Insert "complaint" (Complaint.id row));;
      mret row
  end.

Definition add_poll (question o1 o2 o3 o4 : string) : M Poll.t :=
  ps ← gets polls_table;
  let row := Poll.mk (next_rowid (Poll.id <$> ps)) question o1 o2 o3 o4 in
  modify (set_polls (ps ++ [row]));;
  record (Insert "poll" (Poll.id row));;
  mret row.

Definition add_vote (poll_id : sqlval) (option : string) (user_id : Z)
  : M Vote.t :=
  vs ← gets votes;
  let row := Vote.mk (next_rowid (Vote.id <$> vs)) poll_id option user_id in
  modify (set_votes (vs ++ [row]));;
  record (Insert "vote" (Vote.id row));;
  mret row.

(** [Model.query.get_or_404(id)]. *)
Definition get_or_404 {A} (row : option A) : M A :=
  match row with
  | Some r => mret r
  | None => raise NotFound
  end.

(** ** Flask-Login *)

(** [load_user]: [User.query.get(int(user_id))]. *)
Definition load_user (user_id : Z) (w : World) : option User.t :=
  first (filter (λ u, User.id u = user_id) (users w)).

Definition current_user (w : World) : option User.t :=
  session w ≫= λ user_id, load_user user_id w.

Definition login_user (u : User.t) : M unit :=
  modify (set_session (Some (User.id u))).

Definition logout_user : M unit := modify (set_session None).

(** [@login_required] with [login_manager.login_view = "login"]. *)
Definition login_required (view : User.t → M Response) : M Response :=
  cu ← gets current_user;
  match cu with
  | Some u => view u
  | None =>
      flash "Please log in to access this page." "message";;
      mret (Redirect ep_login)
  end.

(** ** The route handlers *)

Section Handlers.

(** Flask-Bcrypt.  [bcrypt_hashpw password salt] is the hash that
    [generate_password_hash] returns when it draws [salt], or [None]
    when the library refuses the password. *)
Variable bcrypt_hashpw : string → string → option string.
Variable check_password_hash : string → string → bool.

(** What SQLite makes of a text bound to a column with INTEGER
    affinity, on INSERT and in a comparison alike. *)
Variable integer_affinity : string → sqlval.

Definition generate_password_hash (env : Env) (password : string)
  : M string :=
  match bcrypt_hashpw password (gensalt env) with
  | Some h => mret h
  | None => raise (ValueError "generate_password_hash")
  end.

(** [User.query.filter_by(email=email)]. *)
Definition users_by_email (email : string) (w : World) : list User.t :=
  filter (λ u, User.email u = email) (users w).

(** [/register] *)
Definition register (env : Env) (request : Request) : M Response :=
  match method request with
  | POST =>
      name ← form_item request "name";
      email ← form_item request "email";
      raw ← form_item request "password";
      password ← generate_password_hash env raw;
      existing ← gets (λ w, first (users_by_email email w));
      match existing with
      | Some _ =>
          flash "Email already registered!" "danger";;
          mret (Redirect ep_register)
      | None =>
          add_user name email password;;
          flash "Registration successful. Please login." "success";;
          mret (Redirect ep_login)
      end
  | GET => mret (Render "register.html")
  end.

(** [/login] *)
Definition login (request : Request) : M Response :=
  match method request with
  | POST =>
      email ← form_item request "email";
      password ← form_item request "password";
      user ← gets (λ w, first (users_by_email email w));
      let invalid :=
        flash "Invalid email or password" "danger";;
        mret (Render "login.html") in
      match user with
      | Some u =>
          if check_password_hash (User.password u) password then
            login_user u;;
            flash "Login successful!" "success";;
            mret (Redirect ep_awareness)
          else invalid
      | None => invalid
      end
  | GET => mret (Render "login.html")
  end.

(** [/logout] *)
Definition logout : M Response :=
  login_required (λ _,
    logout_user;;
    flash "Logged out" "info";;
    mret (Redirect ep_login)).

(** The upload part of [/complaint]: the value of [proof_file]. *)
Definition handle_upload (env : Env) (request : Request)
  : M (option string) :=
  match files request !! "proof_file" with
  | Some file =>
      if bool_decide (filename file ≠ EmptyString) then
        let upload_dir := path_join "static" "uploads" in
        perform env (Makedirs upload_dir);;
        let proof_file := "uploads/" +:+ filename file in
        perform env (Save (path_join "static" proof_file) (stream file));;
        mret (Some proof_file)
      else mret None
  | None => mret None
  end.

(** The [try] block of [/complaint]. *)
Definition notify_admin (env : Env) (user : User.t)
    (new_complaint : Complaint.t) (subject severity : option string)
    (details : string) (anonymous : bool) (proof_file : option string)
  : M unit :=
  let msg_subject := "üö® New Complaint (Severity: " +:+ py_str severity +:+ ")" in
  let proof_text :=
    if py_bool proof_file
    then "Proof: http://127.0.0.1:5000/static/" +:+ py_str proof_file
    else "Proof: None" in
  let body :=
    "Complaint ID: " +:+ pretty (Complaint.id new_complaint) +:+ "
" +:+ "Student: "
      +:+ (if anonymous then "Anonymous" else User.name user) +:+ "
" +:+ "Subject: " +:+ py_str subject +:+ "
" +:+ "Severity: " +:+ py_str severity +:+ "
" +:+ "Details: " +:+ details +:+ "
" +:+ proof_text +:+ "
" +:+ "Date: " +:+ Complaint.date new_complaint in
  perform env
    (Send msg_subject (MAIL_DEFAULT_SENDER env) [ADMIN_EMAIL env] body);;
  flash "‚úÖ Complaint submitted and email sent to Admin!" "success";;
  record (Log "INFO" ("Email sent successfully for complaint "
                      +:+ pretty (Complaint.id new_complaint))).

(** The [except Exception as e] block of [/complaint]. *)
Definition notify_failed (env : Env) (new_complaint : Complaint.t)
    (e : string) : M unit :=
  record (Log "ERROR" ("Email failed: " +:+ e));;
  record (Log "ERROR" ("Mail config - Server: " +:+ MAIL_SERVER
                       +:+ ", Port: " +:+ pretty MAIL_PORT));;
  record (Log "ERROR" ("Mail config - Username: " +:+ MAIL_USERNAME env));;
  flash ("‚ö†Ô∏è Complaint #" +:+ pretty (Complaint.id new_complaint)
         +:+ " saved successfully, but email notification failed. Admin will still review it.")
        "warning".

(** [/complaint] *)
Definition complaint (env : Env) (request : Request) : M Response :=
  login_required (λ user,
    match method request with
    | POST =>
        let subject := form_get request "subject" in
        let severity := form_get request "severity" in
        details ← form_item request "details";
        let anonymous := py_bool (form_get request "anonymous") in
        proof_file ← handle_upload env request;
        new_complaint ← add_complaint env
          (Complaint.new
             (if anonymous then None else Some (User.id user))
             subject severity details anonymous proof_file);
        try_except
          (notify_admin env user new_complaint subject severity details
                        anonymous proof_file)
          (notify_failed env new_complaint);;
        mret (Redirect (ep_track (Complaint.id new_complaint)))
    | GET => mret (Render "complaint.html")
    end).

(** [Vote.query.filter_by(poll_id=poll_id, user_id=user_id)]. *)
Definition votes_by (poll_id : sqlval) (user_id : Z) (w : World)
  : list Vote.t :=
  filter (λ v, Vote.poll_id v = poll_id ∧ Vote.user_id v = user_id)
         (votes w).

(** [/polls] *)
Definition polls (request : Request) : M Response :=
  login_required (λ user,
    polls ← gets polls_table;
    polls ← (match polls with
             | [] =>
                 add_poll "Should strict action be taken against ragging?"
                          "Yes, strict punishment"
                          "No, only counseling"
                          "Maybe, depends on severity"
                          "Not sure";;
                 gets polls_table
             | _ => mret polls
             end);
    match method request with
    | POST =>
        poll_id ← form_item request "poll_id";
        option ← form_item request "option";
        existing_vote ← gets (λ w,
          first (votes_by (integer_affinity poll_id) (User.id user) w));
        match existing_vote with
        | Some _ => flash "‚ö†Ô∏è You already voted!" "warning"
        | None =>
            add_vote (integer_affinity poll_id) option (User.id user);;
            flash "‚úÖ Vote recorded!" "success"
        end;;
        mret (Redirect (ep_poll_results poll_id))
    | GET => mret (RenderPolls polls)
    end).

(** The dict literal of [poll_results]: a later equal key replaces an
    earlier one. *)
Definition results_init (poll : Poll.t) : gmap string Z :=
  <[Poll.option4 poll := 0]>
    (<[Poll.option3 poll := 0]>
       (<[Poll.option2 poll := 0]>
          (<[Poll.option1 poll := 0]> ∅))).

(** The body of the [for v in votes] loop. *)
Definition count_vote (results : gmap string Z) (v : Vote.t)
  : gmap string Z :=
  match results !! Vote.option v with
  | Some n => <[Vote.option v := n + 1]> results
  | None => results
  end.

Definition tally (poll : Poll.t) (vs : list Vote.t) : gmap string Z :=
  foldl count_vote (results_init poll) vs.

(** [Vote.query.filter_by(poll_id=poll_id).all()], [poll_id] an int. *)
Definition votes_of_poll (poll_id : Z) (vs : list Vote.t) : list Vote.t :=
  filter (λ v, Vote.poll_id v = SqlInt poll_id) vs.

(** [/polls/<int:poll_id>/results] *)
Definition poll_results (poll_id : Z) : M Response :=
  login_required (λ _,
    poll ← (ps ← gets polls_table;
            get_or_404 (first (filter (λ p, Poll.id p = poll_id) ps)));
    vs ← gets (λ w, votes_of_poll poll_id (votes w));
    let results := tally poll vs in
    mret (RenderResults poll results)).

End Handlers.

(** ** Quantities the specification speaks of *)

Definition poll_options (poll : Poll.t) : list string :=
  [Poll.option1 poll; Poll.option2 poll; Poll.option3 poll; Poll.option4 poll].

(** How many of the rows [vs] chose [o]. *)
Definition count_option (o : string) (vs : list Vote.t) : Z :=
  Z.of_nat (length (filter (λ v, Vote.option v = o) vs)).

(** How many of the rows [vs] chose one of the poll's options. *)
Definition count_listed (poll : Poll.t) (vs : list Vote.t) : Z :=
  Z.of_nat (length (filter (λ v, Vote.option v ∈ poll_options poll) vs)).

(** The sum of the counts the results page shows. *)
Definition sum_counts (results : gmap string Z) : Z :=
  map_fold (λ _ n acc, n + acc) 0 results.

(** The user already has a row for the poll. *)
Definition has_voted (poll_id : sqlval) (user_id : Z) (w : World) : Prop :=
  ∃ v, v ∈ votes w ∧ Vote.poll_id v = poll_id ∧ Vote.user_id v = user_id.

(** The e-mail addresses of the user table are pairwise distinct: what
    [unique=True] keeps. *)
Definition unique_emails (w : World) : Prop :=
  NoDup (User.email <$> users w).

Definition is_send (eff : Effect) : bool :=
  match eff with
  | Send _ _ _ _ => true
  | _ => false
  end.

(** The environment [env] with the outcome of every SMTP delivery
    replaced by [smtp]. *)
Definition with_smtp (smtp : Effect → option string) (env : Env) : Env :=
  {| environ := environ env;
     raises := λ eff, if is_send eff then smtp eff else raises env eff;
     utcnow := utcnow env;
     gensalt := gensalt env |}.

(** The file system accepts every call. *)
Definition fs_ok (env : Env) : Prop :=
  (∀ path, raises env (Makedirs path) = None)
  ∧ (∀ path data, raises env (Save path data) = None).

(** ** Instances for the examples *)

(** A stand-in for bcrypt: refuses the empty password, as Flask-Bcrypt
    does, and otherwise tags the password. *)
Definition toy_hashpw (password salt : string) : option string :=
  if bool_decide (password = EmptyString) then None else Some ("$2b$" +:+ password).
Definition toy_check (pw_hash password : string) : bool :=
  bool_decide (pw_hash = "$2b$" +:+ password).

(** A stand-in for INTEGER affinity that reads the numerals the
    examples use and keeps every other text. *)
Definition toy_affinity (s : string) : sqlval :=
  if bool_decide (s = "1") then SqlInt 1
  else if bool_decide (s = "2") then SqlInt 2
  else SqlText s.

Definition quiet_env : Env :=
  {| environ := ∅; raises := λ _, None;
     utcnow := "2024-01-01 00:00:00"; gensalt := "salt" |}.

(** SMTP is down, everything else works. *)
Definition smtp_down (eff : Effect) : option string :=
  if is_send eff then Some "Connection refused" else None.

Definition alice : User.t := User.mk 1 "Alice" "alice@campus.edu" "$2b$secret".
Definition sample_poll : Poll.t :=
  Poll.mk 1 "Should strict action be taken against ragging?"
          "Yes, strict punishment" "No, only counseling"
          "Maybe, depends on severity" "Not sure".

(** Alice is registered and logged in; one poll, nothing else. *)
Definition campus : World :=
  mkWorld [alice] [] [sample_poll] [] (Some 1) [] [].

Definition post (fields : list (string * string))
    (uploads : list (string * FileStorage)) : Request :=
  {| method := POST; form := list_to_map fields;
     files := list_to_map uploads |}.

(** The value [proof_file] takes for a request. *)
Definition proof_file_of (request : Request) : option string :=
  match files request !! "proof_file" with
  | Some file =>
      if bool_decide (filename file ≠ EmptyString)
      then Some ("uploads/" +:+ filename file)
      else None
  | None => None
  end.

(** The row [/complaint] stores for a request by [user]. *)
Definition complaint_row (env : Env) (w : World) (request : Request)
    (user : User.t) (subject details : string) : Complaint.t :=
  let anonymous := py_bool (form_get request "anonymous") in
  Complaint.mk (next_rowid (Complaint.id <$> complaints w))
               (if anonymous then None else Some (User.id user))
               subject
               (Some (default "Medium" (form_get request "severity")))
               details anonymous (proof_file_of request)
               "Pending" (utcnow env).

(** The row a request to [/complaint] stores, if it stores one. *)
Definition complaint_stored (env : Env) (w : World) (request : Request)
  : option Complaint.t :=
  match current_user w, method request, form request !! "details",
        (handle_upload env request w).1, form request !! "subject" with
  | Some user, POST, Some d, inr _, Some s =>
      Some (complaint_row env w request user s d)
  | _, _, _, _, _ => None
  end.

(** Alice votes for an option the poll does not list. *)
Definition campus_after_abstain : World :=
  (respond (polls toy_affinity
              (post [("poll_id", "1"); ("option", "Abstain")] []))
           campus).2.

(** ** Further routes *)

(** What a route answers whose template receives a stored row: the
    page with the row, or a response of the kinds above. *)
Inductive Answer (C : Type) : Type :=
| Page (template : string) (context : C)
| Other (r : Response).

Arguments Page {C} template context.
Arguments Other {C} r.

(** [@login_required] on such a route. *)
Definition login_required_page {C} (view : User.t → M (Answer C))
  : M (Answer C) :=
  cu ← gets current_user;
  match cu with
  | Some u => view u
  | None =>
      flash "Please log in to access this page." "message";;
      mret (Other (Redirect ep_login))
  end.

(** What Flask answers when such a route returns or raises. *)
Definition respond_page {C} (m : M (Answer C)) (w : World)
  : Answer C * World :=
  match m w with
  | (inr a, w') => (a, w')
  | (inl e, w') => (Other (respond (raise e) w').1, w')
  end.

(** [/track/<int:complaint_id>] *)
Definition track (complaint_id : Z) : M (Answer Complaint.t) :=
  login_required_page (λ _,
    cs ← gets complaints;
    complaint ← get_or_404
      (first (filter (λ c, Complaint.id c = complaint_id) cs));
    mret (Page "track.html" complaint)).

(** [/awareness] *)
Definition awareness : M Response :=
  login_required (λ _, mret (Render "awareness/index.html")).

(** ** Further quantities *)

(** Primary keys of the user table are pairwise distinct. *)
Definition unique_user_ids (w : World) : Prop :=
  NoDup (User.id <$> users w).

(** The (poll, user) pair a vote row stands for. *)
Definition vote_key (v : Vote.t) : sqlval * Z :=
  (Vote.poll_id v, Vote.user_id v).

(** No user has two rows for one poll. *)
Definition one_vote_each (w : World) : Prop :=
  NoDup (vote_key <$> votes w).

Definition is_insert (eff : Effect) : bool :=
  match eff with
  | Insert _ _ => true
  | _ => false
  end.

(** The worlds agree on everything but the session. *)
Definition same_but_session (w1 w2 : World) : Prop :=
  set_session None w1 = set_session None w2.

(** ** Further instances for the examples *)

Definition bob : User.t := User.mk 2 "Bob" "bob@campus.edu" "$2b$hunter2".

(** Alice and Bob are registered, nobody is logged in. *)
Definition lobby : World :=
  mkWorld [alice; bob] [] [sample_poll] [] None [] [].

(** The file system is full: every write raises. *)
Definition disk_full (eff : Effect) : option string :=
  match eff with
  | Save _ _ => Some "No space left on device"
  | _ => None
  end.

Definition disk_full_env : Env :=
  {| environ := ∅; raises := disk_full;
     utcnow := "2024-01-01 00:00:00"; gensalt := "salt" |}.

Definition photo : FileStorage :=
  {| filename := "photo.png"; stream := "PNG" |}.

Definition bobs_complaint : Complaint.t :=
  Complaint.mk 1 (Some 2) "Ragging" (Some "High") "In the hostel"
               false None "Pending" "2024-01-01 00:00:00".

(** Bob's complaint is stored and Alice is logged in. *)
Definition office : World :=
  mkWorld [alice; bob] [bobs_complaint] [sample_poll] [] (Some 1) [] [].

(** Alice is logged in and no poll exists yet. *)
Definition fresh_campus : World :=
  mkWorld [alice] [] [] [] (Some 1) [] [].

Definition get_request : Request :=
  {| method := GET; form := ∅; files := ∅ |}.

Definition vote_yes : Vote.t := Vote.mk 1 (SqlInt 1) "Yes, strict punishment" 1.
Definition vote_unsure : Vote.t := Vote.mk 2 (SqlInt 1) "Not sure" 2.

(** ** The tally *)

Lemma count_vote_lookup (results : gmap string Z) (v : Vote.t) (o : string) :
  count_vote results v !! o =
  (λ n, if decide (Vote.option v = o) then n + 1 else n) <$> results !! o.
Proof.
  unfold count_vote.
  destruct (results !! Vote.option v) as [n|] eqn:Hv.
  - destruct (decide (Vote.option v = o)) as [<-|Hne].
    + by rewrite lookup_insert_eq, Hv.
    + rewrite lookup_insert_ne by done. by destruct (results !! o).
  - destruct (decide (Vote.option v = o)) as [<-|Hne].
    + by rewrite Hv.
    + by destruct (results !! o).
Qed.

Lemma foldl_count_vote_lookup (vs : list Vote.t) (results : gmap string Z)
    (o : string) :
  foldl count_vote results vs !! o =
  (λ n, n + count_option o vs) <$> results !! o.
Proof.
  revert results. induction vs as [|v vs IH]; intros results.
  - simpl. destruct (results !! o); simpl; [|done].
    f_equal. unfold count_option. simpl. lia.
  - simpl. rewrite IH, count_vote_lookup.
    destruct (results !! o) as [n|]; simpl; [|done].
    f_equal. unfold count_option. rewrite filter_cons.
    destruct (decide (Vote.option v = o)); simpl; lia.
Qed.

Lemma results_init_lookup (poll : Poll.t) (o : string) :
  results_init poll !! o =
  if decide (o ∈ poll_options poll) then Some 0 else None.
Proof.
  unfold results_init, poll_options.
  destruct (decide (o ∈ _)) as [Hin|Hnin].
  - destruct (decide (Poll.option4 poll = o)) as [->|?];
      [by rewrite lookup_insert_eq|rewrite lookup_insert_ne by done].
    destruct (decide (Poll.option3 poll = o)) as [->|?];
      [by rewrite lookup_insert_eq|rewrite lookup_insert_ne by done].
    destruct (decide (Poll.option2 poll = o)) as [->|?];
      [by rewrite lookup_insert_eq|rewrite lookup_insert_ne by done].
    destruct (decide (Poll.option1 poll = o)) as [->|?];
      [by rewrite lookup_insert_eq|].
    rewrite !elem_of_cons, elem_of_nil in Hin. intuition congruence.
  - rewrite !lookup_insert_ne by set_solver. done.
Qed.

Lemma tally_lookup (poll : Poll.t) (vs : list Vote.t) (o : string) :
  tally poll vs !! o =
  if decide (o ∈ poll_options poll) then Some (count_option o vs) else None.
Proof.
  unfold tally. rewrite foldl_count_vote_lookup, results_init_lookup.
  case_decide; simpl; [f_equal; lia|done].
Qed.

Lemma sum_counts_insert (results : gmap string Z) (k : string) (n : Z) :
  results !! k = None →
  sum_counts (<[k:=n]> results) = n + sum_counts results.
Proof.
  intros Hk. unfold sum_counts.
  rewrite map_fold_insert_L; [done| |done].
  intros. lia.
Qed.

Lemma sum_counts_bump (results : gmap string Z) (k : string) (n : Z) :
  results !! k = Some n →
  sum_counts (<[k:=n + 1]> results) = sum_counts results + 1.
Proof.
  intros Hk.
  rewrite <-(insert_delete_eq results k (n + 1)).
  rewrite <-(insert_delete_id results k n) at 2 by done.
  rewrite !sum_counts_insert by apply lookup_delete_eq. lia.
Qed.

Lemma sum_counts_zero (results : gmap string Z) :
  map_Forall (λ _ n, n = 0) results → sum_counts results = 0.
Proof.
  unfold sum_counts.
  apply (map_fold_weak_ind
           (λ r (m : gmap string Z), map_Forall (λ _ n, n = 0) m → r = 0)).
  - done.
  - intros k n m r Hk IH Hall.
    apply map_Forall_insert in Hall as [-> Hall]; [|done].
    rewrite IH by done. lia.
Qed.

Lemma sum_counts_foldl (vs : list Vote.t) (results : gmap string Z) :
  sum_counts (foldl count_vote results vs) =
  sum_counts results
  + Z.of_nat (length (filter (λ v, is_Some (results !! Vote.option v)) vs)).
Proof.
  revert results. induction vs as [|v vs IH]; intros results.
  - simpl. lia.
  - simpl. rewrite IH. rewrite filter_cons.
    assert (Hdom : ∀ v', is_Some (count_vote results v !! Vote.option v')
                         ↔ is_Some (results !! Vote.option v')).
    { intros v'. rewrite count_vote_lookup.
      by rewrite fmap_is_Some. }
    rewrite (list_filter_iff _ (λ v', is_Some (results !! Vote.option v')))
      by done.
    unfold count_vote at 1.
    destruct (results !! Vote.option v) as [n|] eqn:Hv.
    + rewrite sum_counts_bump by done.
      rewrite decide_True by done. simpl. lia.
    + rewrite decide_False by (by intros [? ?]). lia.
Qed.

Lemma tally_sum (poll : Poll.t) (vs : list Vote.t) :
  sum_counts (tally poll vs) = count_listed poll vs.
Proof.
  unfold tally. rewrite sum_counts_foldl.
  rewrite sum_counts_zero.
  - unfold count_listed. rewrite Z.add_0_l. do 2 f_equal.
    apply list_filter_iff. intros v.
    rewrite results_init_lookup. case_decide; [naive_solver|].
    split; [by intros [? ?]|done].
  - intros k n Hk. rewrite results_init_lookup in Hk.
    case_decide; congruence.
Qed.

(** A row whose option is none of the poll's leaves the tally as it is. *)
Lemma tally_skip (poll : Poll.t) (vs1 vs2 : list Vote.t) (v : Vote.t) :
  Vote.option v ∉ poll_options poll →
  tally poll (vs1 ++ v :: vs2) = tally poll (vs1 ++ vs2).
Proof.
  intros Hv. apply map_eq. intros o. rewrite !tally_lookup.
  case_decide as Ho; [|done]. f_equal.
  unfold count_option. rewrite !filter_app, filter_cons.
  rewrite decide_False; [done|]. intros Heq. by rewrite Heq in Hv.
Qed.

(** ** Queries *)

Lemma first_filter_None {A} (P : A → Prop) `{∀ x, Decision (P x)}
    (l : list A) :
  first (filter P l) = None ↔ ∀ x, x ∈ l → ¬ P x.
Proof.
  unfold first. rewrite head_None. split.
  - intros Hnil x Hx HP.
    assert (x ∈ filter P l) as Hin by (by apply list_elem_of_filter).
    rewrite Hnil in Hin. by apply elem_of_nil in Hin.
  - intros Hall. destruct (filter P l) as [|x l'] eqn:Hf; [done|].
    assert (x ∈ filter P l) as Hin by (rewrite Hf; left).
    apply list_elem_of_filter in Hin as [HP Hx]. by destruct (Hall x Hx).
Qed.

Lemma first_filter_Some {A} (P : A → Prop) `{∀ x, Decision (P x)}
    (l : list A) (x : A) :
  first (filter P l) = Some x → x ∈ l ∧ P x.
Proof.
  unfold first. intros Hh.
  assert (x ∈ filter P l) as Hin.
  { destruct (filter P l); simplify_eq/=. left. }
  apply list_elem_of_filter in Hin. tauto.
Qed.

(** Unfolds the monad's operations so that a handler runs on a world. *)
Ltac mrun :=
  unfold mbind, M_bind, mret, M_ret, gets, modify, raise, record, flash,
    form_item, form_get; simpl.

(** ** Voting *)

Section Voting.

Variable integer_affinity : string → sqlval.

Lemma has_voted_first (poll_id : sqlval) (user_id : Z) (w : World) :
  has_voted poll_id user_id w ↔
  is_Some (first (votes_by poll_id user_id w)).
Proof.
  unfold has_voted, votes_by. split.
  - intros (v & Hv & Hp & Hu).
    destruct (first _) eqn:Hf; [done|].
    rewrite first_filter_None in Hf. by destruct (Hf v Hv).
  - intros [v Hf]. apply first_filter_Some in Hf as (? & ? & ?). eauto.
Qed.

(** What a POST to [/polls] with both fields does. *)
Lemma polls_post (w : World) (request : Request) (user : User.t)
    (pid opt : string) :
  method request = POST →
  current_user w = Some user →
  form request !! "poll_id" = Some pid →
  form request !! "option" = Some opt →
  ∃ w', respond (polls integer_affinity request) w
        = (Redirect (ep_poll_results pid), w')
    ∧ users w' = users w ∧ complaints w' = complaints w
    ∧ session w' = session w
    ∧ (polls_table w ≠ [] → polls_table w' = polls_table w)
    ∧ match first (votes_by (integer_affinity pid) (User.id user) w) with
      | Some _ =>
          votes w' = votes w
          ∧ ∃ msg, flashes w' = (flashes w ++ [("warning", msg)])%list
      | None =>
          votes w' =
            (votes w ++ [Vote.mk (next_rowid (Vote.id <$> votes w))
                                 (integer_affinity pid) opt
                                 (User.id user)])%list
          ∧ ∃ msg, flashes w' = (flashes w ++ [("success", msg)])%list
      end.
Proof.
  intros Hm Hcu Hpid Hopt.
  unfold respond, polls, login_required, add_poll, add_vote. mrun.
  rewrite Hcu. simpl.
  destruct (polls_table w) eqn:Hp; simpl; rewrite Hm; mrun;
    rewrite Hpid, Hopt; simpl; unfold votes_by; simpl;
    destruct (first _); simpl; eexists; repeat split; eauto; done.
Qed.

(** [/polls/<id>/results] for a logged-in user and a stored poll. *)
Lemma poll_results_run (w : World) (n : Z) (poll : Poll.t) (user : User.t) :
  current_user w = Some user →
  first (filter (λ p, Poll.id p = n) (polls_table w)) = Some poll →
  respond (poll_results n) w
  = (RenderResults poll (tally poll (votes_of_poll n (votes w))), w).
Proof.
  intros Hcu Hpoll. unfold respond, poll_results, login_required. mrun.
  rewrite Hcu. simpl. rewrite Hpoll. done.
Qed.


(** C9: the vote handler stores whatever option string is submitted,
    listed by the poll or not, and the results page shows the same
    counts as before once a vote for an unlisted option is stored. *)
Theorem unlisted_option_stored_and_skipped (w : World) (request : Request)
    (user : User.t) (pid opt : string) (n : Z) (poll : Poll.t) :
  method request = POST →
  current_user w = Some user →
  form request !! "poll_id" = Some pid →
  form request !! "option" = Some opt →
  ¬ has_voted (integer_affinity pid) (User.id user) w →
  first (filter (λ p, Poll.id p = n) (polls_table w)) = Some poll →
  let w' := (respond (polls integer_affinity request) w).2 in
  (∃ v, votes w' = (votes w ++ [v])%list ∧ Vote.option v = opt)
  ∧ (opt ∉ poll_options poll →
     ∃ results,
       (respond (poll_results n) w).1 = RenderResults poll results
       ∧ (respond (poll_results n) w').1 = RenderResults poll results
       ∧ results !! opt = None).
Proof.
  intros Hm Hcu Hpid Hopt Hnew Hpoll.
  destruct (polls_post w request user pid opt Hm Hcu Hpid Hopt)
    as (w' & -> & Hu & _ & Hs & Hp & Hcase).
  simpl. rewrite has_voted_first in Hnew.
  destruct (first (votes_by _ _ _)) as [v0|]; [by destruct Hnew|].
  destruct Hcase as [Hvotes _]. split; [rewrite Hvotes; eauto|].
  intros Hopt'. eexists. split; [|split].
  - by rewrite (poll_results_run w n poll user).
  - assert (polls_table w' = polls_table w) as Hp'.
    { apply Hp. intros Hnil. by rewrite Hnil in Hpoll. }
    rewrite (poll_results_run w' n poll user).
    + simpl. f_equal. rewrite Hvotes. unfold votes_of_poll.
      rewrite filter_app, filter_cons. case_decide; simpl.
      * rewrite <-(app_nil_r (filter _ (votes w))) at 2.
        by apply tally_skip.
      * by rewrite app_nil_r.
    + unfold current_user, load_user in *. by rewrite Hs, Hu.
    + by rewrite Hp'.
  - rewrite tally_lookup. by rewrite decide_False.
Qed.

(** C4, the part that holds, with the sum as the code computes it: the
    results page of a stored poll shows, for each of the poll's option
    strings, the number of stored rows of that poll with that option;
    the shown counts add up to the number of the poll's rows whose
    option is one of those strings. *)
Theorem poll_results_counts (w : World) (n : Z) (poll : Poll.t)
    (user : User.t) :
  current_user w = Some user →
  first (filter (λ p, Poll.id p = n) (polls_table w)) = Some poll →
  ∃ results,
    respond (poll_results n) w = (RenderResults poll results, w)
    ∧ (∀ o, o ∈ poll_options poll →
         results !! o = Some (count_option o (votes_of_poll n (votes w))))
    ∧ sum_counts results = count_listed poll (votes_of_poll n (votes w)).
Proof.
  intros Hcu Hpoll. eexists. split; [by apply (poll_results_run w n poll user)|].
  split.
  - intros o Ho. rewrite tally_lookup. by rewrite decide_True.
  - apply tally_sum.
Qed.

End Voting.


Lemma campus_not_voted : ¬ has_voted (toy_affinity "1") (User.id alice) campus.
Proof. intros (v & Hv & _). simpl in Hv. by apply elem_of_nil in Hv. Defined.

Lemma unlisted_option_stored_and_skipped_witness :
  (∃ v, votes campus_after_abstain = (votes campus ++ [v])%list
        ∧ Vote.option v = "Abstain")
  ∧ ("Abstain" ∉ poll_options sample_poll →
     ∃ results,
       (respond (poll_results 1) campus).1 = RenderResults sample_poll results
       ∧ (respond (poll_results 1) campus_after_abstain).1
         = RenderResults sample_poll results
       ∧ results !! "Abstain" = None).
Proof.
  apply (unlisted_option_stored_and_skipped toy_affinity campus
           (post [("poll_id", "1"); ("option", "Abstain")] [])
           alice "1" "Abstain" 1 sample_poll);
    first [reflexivity | exact campus_not_voted].
Defined.

Lemma poll_results_counts_witness :
  ∃ results,
    respond (poll_results 1) campus_after_abstain
    = (RenderResults sample_poll results, campus_after_abstain)
    ∧ (∀ o, o ∈ poll_options sample_poll →
         results !! o
         = Some (count_option o
                   (votes_of_poll 1 (votes campus_after_abstain))))
    ∧ sum_counts results
      = count_listed sample_poll
          (votes_of_poll 1 (votes campus_after_abstain)).
Proof.
  apply (poll_results_counts campus_after_abstain 1 sample_poll alice);
    reflexivity.
Defined.

(** C4 as stated fails: after Alice's vote for "Abstain" the poll has
    one stored row, and the counts on its results page add up to 0. *)
Lemma poll_results_sum_counterexample :
  (respond (poll_results 1) campus_after_abstain).1
  = RenderResults sample_poll
      (tally sample_poll (votes_of_poll 1 (votes campus_after_abstain)))
  ∧ sum_counts
      (tally sample_poll (votes_of_poll 1 (votes campus_after_abstain))) = 0
  ∧ Z.of_nat (length (votes_of_poll 1 (votes campus_after_abstain))) = 1
  ∧ sum_counts
      (tally sample_poll (votes_of_poll 1 (votes campus_after_abstain)))
    ≠ Z.of_nat (length (votes_of_poll 1 (votes campus_after_abstain))).
Proof. vm_compute. repeat split; discriminate. Qed.

(** ** Accounts *)

Lemma users_by_email_None (email : string) (w : World) :
  first (users_by_email email w) = None ↔ email ∉ User.email <$> users w.
Proof.
  unfold users_by_email. rewrite first_filter_None, list_elem_of_fmap.
  split.
  - intros Hall (u & -> & Hu). by apply (Hall u).
  - intros Hnot u Hu Heq. apply Hnot. eauto.
Qed.

Lemma users_by_email_unique (email : string) (w : World) (u : User.t) :
  unique_emails w → u ∈ users w → User.email u = email →
  first (users_by_email email w) = Some u.
Proof.
  unfold unique_emails, users_by_email, first.
  induction (users w) as [|u0 us IH]; intros Hnd Hu Heq.
  - by apply elem_of_nil in Hu.
  - rewrite fmap_cons in Hnd. apply NoDup_cons in Hnd as [Hfresh Hnd].
    rewrite filter_cons. apply elem_of_cons in Hu as [<-|Hu].
    + by rewrite decide_True.
    + rewrite decide_False; [by apply IH|].
      intros Heq0. apply Hfresh. rewrite Heq0, <-Heq.
      by apply list_elem_of_fmap_2.
Qed.

Section Accounts.

Variable bcrypt_hashpw : string → string → option string.
Variable check_password_hash : string → string → bool.

(** What a POST to [/register] with the three fields does once the
    password is hashed. *)
Lemma register_post (env : Env) (w : World) (request : Request)
    (name email raw h : string) :
  method request = POST →
  form request !! "name" = Some name →
  form request !! "email" = Some email →
  form request !! "password" = Some raw →
  bcrypt_hashpw raw (gensalt env) = Some h →
  respond (register bcrypt_hashpw env request) w =
  if decide (email ∈ User.email <$> users w)
  then (Redirect ep_register,
        set_flashes
          (flashes w ++ [("danger", "Email already registered!")]) w)
  else (Redirect ep_login,
        set_flashes
          (flashes w
           ++ [("success", "Registration successful. Please login.")])
          (set_trace
             (trace w
              ++ [(Insert "user" (next_rowid (User.id <$> users w)), None)])
             (set_users
                (users w
                 ++ [User.mk (next_rowid (User.id <$> users w))
                             name email h])
                w))).
Proof.
  intros Hm Hname Hemail Hraw Hh.
  unfold respond, register, generate_password_hash, add_user.
  rewrite Hm. mrun. rewrite Hname, Hemail, Hraw. simpl. rewrite Hh. simpl.
  destruct (decide (email ∈ User.email <$> users w)) as [Hin|Hnin].
  - destruct (first (users_by_email email w)) eqn:Hf; [done|].
    apply users_by_email_None in Hf. done.
  - apply users_by_email_None in Hnin as Hf. rewrite Hf. simpl.
    rewrite decide_False by done. done.
Qed.

(** A request leaves the user table as it was or appends one user
    with a fresh e-mail address. *)
Lemma register_users (env : Env) (w : World) (request : Request) :
  let w' := (respond (register bcrypt_hashpw env request) w).2 in
  users w' = users w
  ∨ ∃ u, users w' = (users w ++ [u])%list
         ∧ User.email u ∉ User.email <$> users w.
Proof.
  unfold respond, register, generate_password_hash, add_user.
  destruct (method request); mrun; [by left|].
  destruct (form request !! "name"); simpl; [|by left].
  destruct (form request !! "email") as [email|]; simpl; [|by left].
  destruct (form request !! "password") as [raw|]; simpl; [|by left].
  destruct (bcrypt_hashpw raw (gensalt env)); simpl; [|by left].
  destruct (first (users_by_email email w)) eqn:Hf; simpl; [by left|].
  apply users_by_email_None in Hf.
  rewrite decide_False by done. simpl. right. eauto.
Qed.

(** [unique=True] is never violated by [/register]. *)
Lemma register_unique_emails (env : Env) (w : World) (request : Request) :
  unique_emails w →
  unique_emails (respond (register bcrypt_hashpw env request) w).2.
Proof.
  intros Hnd. unfold unique_emails in *.
  destruct (register_users env w request) as [->|(u & -> & Hfresh)];
    [done|].
  rewrite fmap_app. apply NoDup_app. split; [done|]. split.
  - intros e He Hin. simpl in Hin. apply list_elem_of_singleton in Hin.
    by subst.
  - simpl. apply NoDup_singleton.
Qed.


(** What a POST to [/login] with both fields does. *)
Lemma login_post (w : World) (request : Request) (email password : string) :
  method request = POST →
  form request !! "email" = Some email →
  form request !! "password" = Some password →
  respond (login check_password_hash request) w =
  match first (users_by_email email w) with
  | Some u =>
      if check_password_hash (User.password u) password
      then (Redirect ep_awareness,
            set_flashes (flashes w ++ [("success", "Login successful!")])
                        (set_session (Some (User.id u)) w))
      else (Render "login.html",
            set_flashes
              (flashes w ++ [("danger", "Invalid email or password")]) w)
  | None =>
      (Render "login.html",
       set_flashes
         (flashes w ++ [("danger", "Invalid email or password")]) w)
  end.
Proof.
  intros Hm Hemail Hpw. unfold respond, login, login_user.
  rewrite Hm. mrun. rewrite Hemail, Hpw. simpl.
  destruct (first (users_by_email email w)) as [u|]; simpl; [|done].
  by destruct (check_password_hash (User.password u) password).
Qed.

(** C6: for a registered user, the user's e-mail address with the
    password whose hash is stored starts the user's session; the
    address with a password that fails the check, and an address that
    no user has, leave the session as it was. *)
Theorem login_checks_password (w : World) (request : Request)
    (u : User.t) (email password : string) :
  (∀ pw salt h, bcrypt_hashpw pw salt = Some h →
                check_password_hash h pw = true) →
  unique_emails w →
  u ∈ users w →
  method request = POST →
  form request !! "email" = Some email →
  form request !! "password" = Some password →
  let resp := (respond (login check_password_hash request) w).1 in
  let w' := (respond (login check_password_hash request) w).2 in
  (email = User.email u →
     (∃ salt, bcrypt_hashpw password salt = Some (User.password u)) →
     resp = Redirect ep_awareness ∧ session w' = Some (User.id u))
  ∧ (email = User.email u →
     check_password_hash (User.password u) password = false →
     resp = Render "login.html" ∧ session w' = session w)
  ∧ (email ∉ User.email <$> users w →
     resp = Render "login.html" ∧ session w' = session w).
Proof.
  intros Hlib Hnd Hu Hm Hemail Hpw. simpl.
  rewrite (login_post w request email password) by done.
  split; [|split].
  - intros -> [salt Hh]. apply Hlib in Hh.
    rewrite (users_by_email_unique (User.email u) w u) by done.
    by rewrite Hh.
  - intros -> Hbad.
    rewrite (users_by_email_unique (User.email u) w u) by done.
    by rewrite Hbad.
  - intros Hnone. apply users_by_email_None in Hnone. by rewrite Hnone.
Qed.


End Accounts.


Lemma toy_bcrypt_sound (pw salt h : string) :
  toy_hashpw pw salt = Some h → toy_check h pw = true.
Proof.
  unfold toy_hashpw, toy_check. case_bool_decide; [done|].
  intros [= <-]. by apply bool_decide_eq_true.
Defined.

Lemma campus_unique_emails : unique_emails campus.
Proof. unfold unique_emails. simpl. apply NoDup_singleton. Defined.

Lemma login_checks_password_witness :
  let request := post [("email", "alice@campus.edu");
                       ("password", "secret")] [] in
  let resp := (respond (login toy_check request) campus).1 in
  let w' := (respond (login toy_check request) campus).2 in
  ("alice@campus.edu" = User.email alice →
     (∃ salt, toy_hashpw "secret" salt = Some (User.password alice)) →
     resp = Redirect ep_awareness ∧ session w' = Some (User.id alice))
  ∧ ("alice@campus.edu" = User.email alice →
     toy_check (User.password alice) "secret" = false →
     resp = Render "login.html" ∧ session w' = session campus)
  ∧ ("alice@campus.edu" ∉ User.email <$> users campus →
     resp = Render "login.html" ∧ session w' = session campus).
Proof.
  apply (login_checks_password toy_hashpw toy_check campus
           (post [("email", "alice@campus.edu"); ("password", "secret")] [])
           alice "alice@campus.edu" "secret").
  - exact toy_bcrypt_sound.
  - exact campus_unique_emails.
  - simpl. left.
  - reflexivity.
  - reflexivity.
  - reflexivity.
Defined.


(** ** Complaints *)

Lemma path_join_static (name : string) :
  path_join "static" ("uploads/" +:+ name) = "static/uploads/" +:+ name.
Proof. reflexivity. Qed.

Ltac frame_solve :=
  simpl; repeat (split; [reflexivity|]);
  eexists; split; [rewrite <-?app_assoc; reflexivity|repeat constructor].

(** The upload touches the trace only, and sends no mail. *)
Lemma handle_upload_frame (env : Env) (request : Request) (w : World) :
  let r := handle_upload env request w in
  users r.2 = users w ∧ complaints r.2 = complaints w
  ∧ polls_table r.2 = polls_table w ∧ votes r.2 = votes w
  ∧ session r.2 = session w ∧ flashes r.2 = flashes w
  ∧ ∃ pre, trace r.2 = (trace w ++ pre)%list
           ∧ Forall (λ e, is_send e.1 = false) pre.
Proof.
  unfold handle_upload, perform.
  destruct (files request !! "proof_file") as [file|]; mrun.
  - case_bool_decide; mrun.
    + destruct (raises env (Makedirs _)); simpl.
      * frame_solve.
      * destruct (raises env (Save _ _)); frame_solve.
    + repeat (split; [reflexivity|]). exists []. by rewrite app_nil_r.
  - repeat (split; [reflexivity|]). exists []. by rewrite app_nil_r.
Qed.

Lemma handle_upload_value (env : Env) (request : Request) (w : World)
    (pf : option string) :
  (handle_upload env request w).1 = inr pf → pf = proof_file_of request.
Proof.
  unfold handle_upload, proof_file_of, perform.
  destruct (files request !! "proof_file") as [file|]; mrun.
  - case_bool_decide; mrun.
    + destruct (raises env (Makedirs _)); simpl; [done|].
      destruct (raises env (Save _ _)); simpl; [done|]. by intros [= <-].
    + by intros [= <-].
  - by intros [= <-].
Qed.

(** With a file system that accepts the calls, the upload is written to
    [static/uploads/<filename>]. *)
Lemma handle_upload_saved (env : Env) (request : Request) (w : World)
    (file : FileStorage) :
  fs_ok env →
  files request !! "proof_file" = Some file →
  filename file ≠ EmptyString →
  handle_upload env request w =
  (inr (Some ("uploads/" +:+ filename file)),
   set_trace
     (trace w ++ [(Makedirs "static/uploads", None);
                  (Save ("static/uploads/" +:+ filename file) (stream file),
                   None)])
     w).
Proof.
  intros [Hmk Hsv] Hfile Hname. unfold handle_upload, perform.
  rewrite Hfile. rewrite bool_decide_eq_true_2 by done. mrun.
  rewrite Hmk. simpl. rewrite Hsv. simpl. by rewrite <-app_assoc.
Qed.

Lemma handle_upload_ok (env : Env) (request : Request) (w : World) :
  fs_ok env → (handle_upload env request w).1 = inr (proof_file_of request).
Proof.
  intros Hfs. unfold proof_file_of.
  destruct (files request !! "proof_file") as [file|] eqn:Hfile.
  - case_bool_decide as Hname.
    + by rewrite (handle_upload_saved env request w file).
    + unfold handle_upload. rewrite Hfile.
      rewrite bool_decide_eq_false_2 by (by intros []). reflexivity.
  - unfold handle_upload. rewrite Hfile. reflexivity.
Qed.

(** What a POST to [/complaint] does once the upload is through. *)
Lemma complaint_post (env : Env) (w w1 : World) (request : Request)
    (user : User.t) (s d : string) :
  method request = POST →
  current_user w = Some user →
  form request !! "details" = Some d →
  form request !! "subject" = Some s →
  handle_upload env request w = (inr (proof_file_of request), w1) →
  let c := complaint_row env w request user s d in
  ∃ w' m post,
    respond (complaint env request) w
    = (Redirect (ep_track (Complaint.id c)), w')
    ∧ complaints w' = (complaints w ++ [c])%list
    ∧ is_send m = true
    ∧ trace w'
      = (trace w1
         ++ [(Insert "complaint" (Complaint.id c), None); (m, raises env m)]
         ++ post)%list
    ∧ Forall (λ e, is_send e.1 = false) post
    ∧ ∃ msg, flashes w'
             = (flashes w
                ++ [(if raises env m is Some _ then "warning" else "success",
                     msg)])%list.
Proof.
  intros Hm Hcu Hd Hs Hrun. simpl.
  destruct (handle_upload_frame env request w)
    as (_ & Hc & _ & _ & _ & Hfl & _).
  unfold respond, complaint, login_required. mrun. rewrite Hcu. simpl.
  rewrite Hm. mrun. rewrite Hd. simpl.
  rewrite Hrun in *. simpl in *.
  unfold add_complaint. mrun. rewrite Hs. simpl.
  unfold try_except, notify_admin, notify_failed, perform. mrun.
  rewrite Hc.
  match goal with |- context [raises env ?x] => set (m := x) end.
  destruct (raises env m) as [e|] eqn:Hout; simpl;
    eexists _, m, _; rewrite ?Hout;
    (split; [reflexivity|]); simpl; rewrite ?Hc, ?Hfl;
    (split; [reflexivity|]); (split; [reflexivity|]);
    (split; [rewrite <-!app_assoc; simpl; reflexivity|]);
    (split; [by repeat constructor|eauto]).
Qed.

(** Without a subject the INSERT is refused after the upload. *)
Lemma complaint_post_no_subject (env : Env) (w w1 : World)
    (request : Request) (user : User.t) (d : string) (pf : option string) :
  method request = POST →
  current_user w = Some user →
  form request !! "details" = Some d →
  form request !! "subject" = None →
  handle_upload env request w = (inr pf, w1) →
  respond (complaint env request) w
  = (Uncaught "IntegrityError"
       "NOT NULL constraint failed: complaint.subject", w1).
Proof.
  intros Hm Hcu Hd Hs Hrun.
  unfold respond, complaint, login_required. mrun. rewrite Hcu. simpl.
  rewrite Hm. mrun. rewrite Hd. simpl. rewrite Hrun. simpl.
  unfold add_complaint. mrun. by rewrite Hs.
Qed.

(** The complaint table after any request to [/complaint]. *)
Lemma complaint_store (env : Env) (w : World) (request : Request) :
  complaints (respond (complaint env request) w).2
  = (complaints w ++ option_list (complaint_stored env w request))%list.
Proof.
  unfold complaint_stored.
  destruct (current_user w) as [user|] eqn:Hcu.
  2:{ unfold respond, complaint, login_required. mrun. rewrite Hcu. simpl.
      by rewrite app_nil_r. }
  destruct (method request) eqn:Hm.
  { unfold respond, complaint, login_required. mrun. rewrite Hcu. simpl.
    rewrite Hm. simpl. by rewrite app_nil_r. }
  destruct (form request !! "details") as [d|] eqn:Hd.
  2:{ unfold respond, complaint, login_required. mrun. rewrite Hcu. simpl.
      rewrite Hm. mrun. rewrite Hd. simpl. by rewrite app_nil_r. }
  destruct (handle_upload_frame env request w) as (_ & Hc & _).
  destruct (handle_upload env request w) as [[e|pf] w1] eqn:Hrun; simpl in *.
  { unfold respond, complaint, login_required. mrun. rewrite Hcu. simpl.
    rewrite Hm. mrun. rewrite Hd. simpl. rewrite Hrun. simpl.
    rewrite app_nil_r. by destruct e. }
  destruct (form request !! "subject") as [s|] eqn:Hs.
  - assert (pf = proof_file_of request) as ->.
    { apply (handle_upload_value env request w). by rewrite Hrun. }
    destruct (complaint_post env w w1 request user s d Hm Hcu Hd Hs Hrun)
      as (w' & m & post & Hresp & Hc' & _).
    by rewrite Hresp.
  - rewrite (complaint_post_no_subject env w w1 request user d pf) by done.
    simpl. by rewrite app_nil_r.
Qed.

Lemma complaint_store_new (env : Env) (w : World) (request : Request)
    (c : Complaint.t) :
  complaints (respond (complaint env request) w).2
  = (complaints w ++ [c])%list →
  complaint_stored env w request = Some c.
Proof.
  rewrite complaint_store. intros Heq. apply app_inv_head in Heq.
  by destruct (complaint_stored env w request); simplify_eq/=.
Qed.

Lemma complaint_stored_row (env : Env) (w : World) (request : Request)
    (c : Complaint.t) :
  complaint_stored env w request = Some c →
  ∃ user s d, current_user w = Some user
              ∧ c = complaint_row env w request user s d.
Proof.
  unfold complaint_stored. intros Hc.
  repeat case_match; simplify_eq. eauto.
Qed.

(** The outcome of the SMTP delivery does not reach the upload. *)
Lemma handle_upload_with_smtp (smtp : Effect → option string) (env : Env)
    (request : Request) (w : World) :
  handle_upload (with_smtp smtp env) request w = handle_upload env request w.
Proof. reflexivity. Qed.

(** The complaint table after a request is the same whatever becomes
    of the notification. *)
Lemma complaint_store_any_smtp (smtp : Effect → option string) (env : Env)
    (w : World) (request : Request) :
  complaints (respond (complaint (with_smtp smtp env) request) w).2
  = complaints (respond (complaint env request) w).2.
Proof.
  rewrite !complaint_store. unfold complaint_stored.
  by rewrite handle_upload_with_smtp.
Qed.

(** C1, restricted to the submissions the code accepts: a POST to
    [/complaint] by a logged-in user that carries [details] and
    [subject], with a file system that stores the upload, appends
    exactly one complaint; the INSERT is the call just before the one
    SMTP delivery of the request; the handler ends in the redirect to
    the tracking page, with a warning flashed when the delivery raised;
    and the complaint table is the same whatever the delivery does. *)
Theorem complaint_persisted_before_mail (env : Env) (w : World)
    (request : Request) (user : User.t) (s d : string) :
  method request = POST →
  current_user w = Some user →
  form request !! "details" = Some d →
  form request !! "subject" = Some s →
  fs_ok env →
  ∃ c w' pre m post,
    respond (complaint env request) w
    = (Redirect (ep_track (Complaint.id c)), w')
    ∧ complaints w' = (complaints w ++ [c])%list
    ∧ is_send m = true
    ∧ trace w'
      = (trace w ++ pre
         ++ [(Insert "complaint" (Complaint.id c), None); (m, raises env m)]
         ++ post)%list
    ∧ Forall (λ e, is_send e.1 = false) pre
    ∧ Forall (λ e, is_send e.1 = false) post
    ∧ (∃ msg, flashes w'
              = (flashes w
                 ++ [(if raises env m is Some _ then "warning" else "success",
                      msg)])%list)
    ∧ ∀ smtp,
        complaints (respond (complaint (with_smtp smtp env) request) w).2
        = complaints w'.
Proof.
  intros Hm Hcu Hd Hs Hfs.
  pose proof (handle_upload_ok env request w Hfs) as Hok.
  destruct (handle_upload_frame env request w)
    as (_ & _ & _ & _ & _ & _ & pre & Htr & Hpre).
  destruct (handle_upload env request w) as [r w1] eqn:Hrun.
  simpl in *. subst r.
  destruct (complaint_post env w w1 request user s d Hm Hcu Hd Hs Hrun)
    as (w' & m & post & Hresp & Hc & Hsend & Htrace & Hpost & Hflash).
  exists (complaint_row env w request user s d), w', pre, m, post.
  repeat (split; [done|]). split.
  - by rewrite Htrace, Htr, <-app_assoc.
  - repeat (split; [done|]). intros smtp.
    by rewrite complaint_store_any_smtp, Hresp.
Qed.

(** C2: a complaint stored by [/complaint] has no owner exactly when its
    anonymous flag is set; the flag is the truth value of the form's
    [anonymous] field, and an owner is the logged-in user. *)
Theorem complaint_owner_iff_not_anonymous (env : Env) (w : World)
    (request : Request) (c : Complaint.t) :
  complaints (respond (complaint env request) w).2
  = (complaints w ++ [c])%list →
  (Complaint.student_id c = None ↔ Complaint.anonymous c = true)
  ∧ Complaint.anonymous c = py_bool (form_get request "anonymous")
  ∧ (Complaint.anonymous c = false →
     ∃ user, current_user w = Some user
             ∧ Complaint.student_id c = Some (User.id user)).
Proof.
  intros Hnew. apply complaint_store_new, complaint_stored_row in Hnew
    as (user & s & d & Hcu & ->).
  unfold complaint_row. simpl.
  destruct (py_bool (form_get request "anonymous")); split; try done.
  split; [done|]. eauto.
Qed.

(** C7: a complaint stored from a form without a [severity] field has
    severity "Medium". *)
Theorem complaint_default_severity (env : Env) (w : World)
    (request : Request) (c : Complaint.t) :
  form request !! "severity" = None →
  complaints (respond (complaint env request) w).2
  = (complaints w ++ [c])%list →
  Complaint.severity c = Some "Medium".
Proof.
  intros Hsev Hnew. apply complaint_store_new, complaint_stored_row in Hnew
    as (user & s & d & Hcu & ->).
  unfold complaint_row, form_get. simpl. by rewrite Hsev.
Qed.


(** SMTP refuses the delivery; the file system and the clock work. *)
Lemma fs_ok_smtp_down : fs_ok (with_smtp smtp_down quiet_env).
Proof. split; reflexivity. Defined.

Lemma complaint_persisted_before_mail_witness :
  let env := with_smtp smtp_down quiet_env in
  let request :=
    post [("subject", "Ragging"); ("details", "In the hostel")]
         [("proof_file", {| filename := "photo.png"; stream := "PNG" |})] in
  ∃ c w' pre m post,
    respond (complaint env request) campus
    = (Redirect (ep_track (Complaint.id c)), w')
    ∧ complaints w' = (complaints campus ++ [c])%list
    ∧ is_send m = true
    ∧ trace w'
      = (trace campus ++ pre
         ++ [(Insert "complaint" (Complaint.id c), None); (m, raises env m)]
         ++ post)%list
    ∧ Forall (λ e, is_send e.1 = false) pre
    ∧ Forall (λ e, is_send e.1 = false) post
    ∧ (∃ msg, flashes w'
              = (flashes campus
                 ++ [(if raises env m is Some _ then "warning" else "success",
                      msg)])%list)
    ∧ ∀ smtp,
        complaints (respond (complaint (with_smtp smtp env) request) campus).2
        = complaints w'.
Proof.
  apply (complaint_persisted_before_mail (with_smtp smtp_down quiet_env)
           campus
           (post [("subject", "Ragging"); ("details", "In the hostel")]
                 [("proof_file",
                   {| filename := "photo.png"; stream := "PNG" |})])
           alice "Ragging" "In the hostel");
    first [reflexivity | exact fs_ok_smtp_down].
Defined.

(** C1 as stated fails: a logged-in user's submission with [details]
    and no [subject] ends in an uncaught IntegrityError and stores no
    complaint. *)
Lemma complaint_without_subject_counterexample :
  let request := post [("details", "In the hostel")] [] in
  current_user campus = Some alice
  ∧ (respond (complaint quiet_env request) campus).1
    = Uncaught "IntegrityError" "NOT NULL constraint failed: complaint.subject"
  ∧ complaints (respond (complaint quiet_env request) campus).2
    = complaints campus
  ∧ ¬ ∃ c, complaints (respond (complaint quiet_env request) campus).2
           = (complaints campus ++ [c])%list.
Proof.
  simpl. repeat (split; [reflexivity|]).
  intros [c Hc]. vm_compute in Hc. discriminate Hc.
Qed.

Lemma complaint_owner_iff_not_anonymous_witness :
  let c := Complaint.mk 1 None "Ragging" (Some "Medium") "In the hostel"
                        true None "Pending" "2024-01-01 00:00:00" in
  let request := post [("subject", "Ragging"); ("details", "In the hostel");
                       ("anonymous", "on")] [] in
  (Complaint.student_id c = None ↔ Complaint.anonymous c = true)
  ∧ Complaint.anonymous c = py_bool (form_get request "anonymous")
  ∧ (Complaint.anonymous c = false →
     ∃ user, current_user campus = Some user
             ∧ Complaint.student_id c = Some (User.id user)).
Proof.
  apply (complaint_owner_iff_not_anonymous quiet_env campus
           (post [("subject", "Ragging"); ("details", "In the hostel");
                  ("anonymous", "on")] [])).
  reflexivity.
Defined.

Lemma complaint_default_severity_witness :
  Complaint.severity
    (Complaint.mk 1 (Some 1) "Ragging" (Some "Medium") "In the hostel"
                  false None "Pending" "2024-01-01 00:00:00")
  = Some "Medium".
Proof.
  apply (complaint_default_severity quiet_env campus
           (post [("subject", "Ragging"); ("details", "In the hostel")] []));
    reflexivity.
Defined.

Lemma fs_ok_quiet : fs_ok quiet_env.
Proof. split; reflexivity. Defined.


(** * Further properties of the handlers *)

(** ** Access control *)

Lemma login_required_anonymous (view : User.t → M Response) (w : World) :
  current_user w = None →
  respond (login_required view) w
  = (Redirect ep_login,
     set_flashes
       (flashes w ++ [("message", "Please log in to access this page.")]) w).
Proof.
  intros Hcu. unfold respond, login_required. mrun. by rewrite Hcu.
Qed.

Lemma complaint_needs_login (env : Env) (w : World) (request : Request) :
  current_user w = None →
  respond (complaint env request) w
  = (Redirect ep_login,
     set_flashes
       (flashes w ++ [("message", "Please log in to access this page.")]) w).
Proof. apply login_required_anonymous. Qed.

(** X1: without a logged-in user, [/complaint], [/polls], the results
    page, [/logout], [/awareness] and [/track/<id>] all answer with the
    redirect to the login page and change nothing but the flashed
    messages: no row is stored and no call leaves the process. *)
Theorem protected_routes_need_login (integer_affinity : string → sqlval)
    (env : Env) (w : World) (request : Request) (n : Z) :
  current_user w = None →
  let w' :=
    set_flashes
      (flashes w ++ [("message", "Please log in to access this page.")]) w in
  respond (complaint env request) w = (Redirect ep_login, w')
  ∧ respond (polls integer_affinity request) w = (Redirect ep_login, w')
  ∧ respond (poll_results n) w = (Redirect ep_login, w')
  ∧ respond logout w = (Redirect ep_login, w')
  ∧ respond awareness w = (Redirect ep_login, w')
  ∧ respond_page (track n) w = (Other (Redirect ep_login), w').
Proof.
  intros Hcu. simpl.
  split; [by apply complaint_needs_login|].
  repeat (split; [by apply login_required_anonymous|]).
  unfold respond_page, track, login_required_page. mrun. by rewrite Hcu.
Qed.

Lemma protected_routes_need_login_witness :
  let request := post [("subject", "Ragging"); ("details", "In the hostel")]
                      [("proof_file", photo)] in
  let w' :=
    set_flashes
      (flashes lobby ++ [("message", "Please log in to access this page.")])
      lobby in
  respond (complaint quiet_env request) lobby = (Redirect ep_login, w')
  ∧ respond (polls toy_affinity request) lobby = (Redirect ep_login, w')
  ∧ respond (poll_results 1) lobby = (Redirect ep_login, w')
  ∧ respond logout lobby = (Redirect ep_login, w')
  ∧ respond awareness lobby = (Redirect ep_login, w')
  ∧ respond_page (track 1) lobby = (Other (Redirect ep_login), w').
Proof.
  apply (protected_routes_need_login toy_affinity quiet_env lobby
           (post [("subject", "Ragging"); ("details", "In the hostel")]
                 [("proof_file", photo)]) 1).
  reflexivity.
Defined.

(** X2: logging out ends the session, so that a complaint submitted
    afterwards is turned away: nothing is stored, written or mailed. *)
Theorem logout_then_complaint (env : Env) (w : World) (user : User.t)
    (request : Request) :
  current_user w = Some user →
  let w1 := (respond logout w).2 in
  let r := respond (complaint env request) w1 in
  (respond logout w).1 = Redirect ep_login
  ∧ session w1 = None
  ∧ r.1 = Redirect ep_login
  ∧ complaints r.2 = complaints w
  ∧ trace r.2 = trace w.
Proof.
  intros Hcu. simpl.
  assert (respond logout w
          = (Redirect ep_login,
             set_flashes (flashes w ++ [("info", "Logged out")])
                         (set_session None w))) as Hout.
  { unfold respond, logout, login_required, logout_user. mrun.
    by rewrite Hcu. }
  rewrite Hout. cbn [fst snd].
  rewrite complaint_needs_login by done. done.
Qed.

Lemma logout_then_complaint_witness :
  let request := post [("subject", "Ragging"); ("details", "In the hostel")]
                      [("proof_file", photo)] in
  let w1 := (respond logout campus).2 in
  let r := respond (complaint quiet_env request) w1 in
  (respond logout campus).1 = Redirect ep_login
  ∧ session w1 = None
  ∧ r.1 = Redirect ep_login
  ∧ complaints r.2 = complaints campus
  ∧ trace r.2 = trace campus.
Proof.
  apply (logout_then_complaint quiet_env campus alice
           (post [("subject", "Ragging"); ("details", "In the hostel")]
                 [("proof_file", photo)])).
  reflexivity.
Defined.

(** ** Missing form fields *)

Section Credentials.

Variable bcrypt_hashpw : string → string → option string.
Variable check_password_hash : string → string → bool.

(** X3: a POST to [/register] without [name], [email] or [password],
    and a POST to [/login] without [email] or [password], is answered
    with 400 and changes nothing, whoever is logged in and whatever the
    other fields say. *)
Theorem credentials_missing_field (env : Env) (w : World)
    (request : Request) :
  method request = POST →
  ((form request !! "name" = None ∨ form request !! "email" = None
    ∨ form request !! "password" = None) →
   respond (register bcrypt_hashpw env request) w = (Abort 400, w))
  ∧ ((form request !! "email" = None
      ∨ form request !! "password" = None) →
     respond (login check_password_hash request) w = (Abort 400, w)).
Proof.
  intros Hm. split.
  - intros Hmiss. unfold respond, register. rewrite Hm. mrun.
    destruct (form request !! "name"); simpl; [|done].
    destruct (form request !! "email"); simpl; [|done].
    destruct (form request !! "password"); simpl; [|done].
    intuition discriminate.
  - intros Hmiss. unfold respond, login. rewrite Hm. mrun.
    destruct (form request !! "email"); simpl; [|done].
    destruct (form request !! "password"); simpl; [|done].
    intuition discriminate.
Qed.

End Credentials.

Lemma credentials_missing_field_witness :
  let request := post [("email", "carol@campus.edu")] [] in
  ((form request !! "name" = None ∨ form request !! "email" = None
    ∨ form request !! "password" = None) →
   respond (register toy_hashpw quiet_env request) campus
   = (Abort 400, campus))
  ∧ ((form request !! "email" = None
      ∨ form request !! "password" = None) →
     respond (login toy_check request) campus = (Abort 400, campus)).
Proof.
  apply (credentials_missing_field toy_hashpw toy_check quiet_env campus
           (post [("email", "carol@campus.edu")] [])).
  reflexivity.
Defined.

(** ** Keys of the user table *)

Lemma next_rowid_above (ids : list Z) (x : Z) :
  x ∈ ids → x < next_rowid ids.
Proof.
  unfold next_rowid. induction ids as [|y ids IH]; intros Hx.
  - by apply elem_of_nil in Hx.
  - simpl. apply elem_of_cons in Hx as [->|Hx]; [lia|].
    specialize (IH Hx). lia.
Qed.

Lemma next_rowid_fresh (ids : list Z) : next_rowid ids ∉ ids.
Proof. intros Hin. apply next_rowid_above in Hin. lia. Qed.

(** A row appended with the next rowid is the one its id finds. *)
Lemma first_by_fresh_id {A} (key : A → Z) (rows : list A) (row : A) :
  key row = next_rowid (key <$> rows) →
  first (filter (λ r, key r = key row) (rows ++ [row])%list) = Some row.
Proof.
  intros Hkey. rewrite filter_app.
  assert (filter (λ r, key r = key row) rows = []) as ->.
  { apply (proj1 (head_None _)), first_filter_None. intros r Hr Heq.
    apply (next_rowid_fresh (key <$> rows)).
    rewrite <-Hkey, <-Heq. by apply list_elem_of_fmap_2. }
  simpl. rewrite filter_cons, decide_True by done. done.
Qed.

Section Registration.

Variable bcrypt_hashpw : string → string → option string.
Variable check_password_hash : string → string → bool.

(** Every way a request to [/register] can end. *)
Lemma register_cases (env : Env) (w : World) (request : Request) :
  let r := respond (register bcrypt_hashpw env request) w in
  (r.2 = w ∧ (r.1 = Render "register.html" ∨ r.1 = Abort 400
              ∨ ∃ msg, r.1 = Uncaught "ValueError" msg))
  ∨ (r.1 = Redirect ep_register ∧ users r.2 = users w)
  ∨ (r.1 = Redirect ep_login
     ∧ ∃ u, users r.2 = (users w ++ [u])%list
            ∧ User.id u = next_rowid (User.id <$> users w)
            ∧ User.email u ∉ User.email <$> users w).
Proof.
  unfold respond, register, generate_password_hash, add_user.
  destruct (method request); mrun; [left; eauto|].
  destruct (form request !! "name"); simpl; [|left; eauto].
  destruct (form request !! "email") as [email|]; simpl; [|left; eauto].
  destruct (form request !! "password") as [raw|]; simpl; [|left; eauto].
  destruct (bcrypt_hashpw raw (gensalt env)); simpl; [|left; eauto 6].
  destruct (first (users_by_email email w)) eqn:Hf; simpl;
    [right; left; eauto|].
  apply users_by_email_None in Hf.
  rewrite decide_False by done. simpl. right. right. eauto 6.
Qed.

(** X4: [/register] keeps the e-mail addresses and the ids of the user
    table pairwise distinct, and no request to it ends in an
    IntegrityError: the duplicate check always runs before the INSERT
    that the UNIQUE constraint would refuse. *)
Theorem register_keeps_keys_unique (env : Env) (w : World)
    (request : Request) :
  unique_emails w →
  unique_user_ids w →
  let r := respond (register bcrypt_hashpw env request) w in
  unique_emails r.2 ∧ unique_user_ids r.2
  ∧ ∀ msg, r.1 ≠ Uncaught "IntegrityError" msg.
Proof.
  intros Hemails Hids. simpl.
  destruct (register_cases env w request)
    as [[-> Hr]|[[Hr Hu]|[Hr (u & Hu & Hid & Hfresh)]]].
  - repeat split; try done. intros msg Heq. rewrite Heq in Hr.
    destruct Hr as [?|[?|[? ?]]]; discriminate.
  - unfold unique_emails, unique_user_ids. rewrite Hu, Hr.
    repeat split; done.
  - unfold unique_emails, unique_user_ids in *. rewrite Hu, Hr, !fmap_app.
    repeat split; [| |done].
    + apply NoDup_app. repeat split; [done| |apply NoDup_singleton].
      intros e He Hin. apply list_elem_of_singleton in Hin. by subst.
    + apply NoDup_app. repeat split; [done| |apply NoDup_singleton].
      intros i Hi Hin. apply list_elem_of_singleton in Hin. subst.
      simpl in Hi. rewrite Hid in Hi. by apply next_rowid_fresh in Hi.
Qed.

(** X5: a user who has just registered can log in: after a successful
    registration, a login with the same e-mail address and password is
    accepted and the current user is the row that registration stored. *)
Theorem register_then_login (env : Env) (w : World) (r1 r2 : Request)
    (name email raw h : string) :
  (∀ pw salt h', bcrypt_hashpw pw salt = Some h' →
                 check_password_hash h' pw = true) →
  unique_emails w →
  method r1 = POST →
  form r1 !! "name" = Some name →
  form r1 !! "email" = Some email →
  form r1 !! "password" = Some raw →
  bcrypt_hashpw raw (gensalt env) = Some h →
  email ∉ User.email <$> users w →
  method r2 = POST →
  form r2 !! "email" = Some email →
  form r2 !! "password" = Some raw →
  let w1 := (respond (register bcrypt_hashpw env r1) w).2 in
  let r := respond (login check_password_hash r2) w1 in
  let u := User.mk (next_rowid (User.id <$> users w)) name email h in
  users w1 = (users w ++ [u])%list
  ∧ r.1 = Redirect ep_awareness
  ∧ current_user r.2 = Some u.
Proof.
  intros Hlib Hnd Hm1 Hname Hemail Hraw Hh Hnew Hm2 Hemail2 Hraw2. simpl.
  pose proof (register_unique_emails bcrypt_hashpw env w r1 Hnd) as Hnd1.
  rewrite (register_post bcrypt_hashpw env w r1 name email raw h) in *
    by done.
  rewrite decide_False in * by done. simpl in *.
  split; [done|].
  rewrite (login_post check_password_hash _ r2 email raw) by done.
  set (u := User.mk (next_rowid (User.id <$> users w)) name email h).
  rewrite (users_by_email_unique email _ u); [|done| |done].
  2:{ simpl. apply elem_of_app. right. left. }
  simpl. rewrite (Hlib raw (gensalt env) h Hh). simpl.
  split; [done|].
  unfold current_user, load_user. simpl.
  apply (first_by_fresh_id User.id (users w) u). done.
Qed.

End Registration.

Lemma register_keeps_keys_unique_witness :
  let request := post [("name", "Carol"); ("email", "carol@campus.edu");
                       ("password", "pw")] [] in
  let r := respond (register toy_hashpw quiet_env request) lobby in
  unique_emails r.2 ∧ unique_user_ids r.2
  ∧ ∀ msg, r.1 ≠ Uncaught "IntegrityError" msg.
Proof.
  apply (register_keeps_keys_unique toy_hashpw quiet_env lobby
           (post [("name", "Carol"); ("email", "carol@campus.edu");
                  ("password", "pw")] [])).
  - unfold unique_emails. simpl. apply NoDup_cons. split.
    + intros Hin. apply list_elem_of_singleton in Hin. discriminate Hin.
    + apply NoDup_singleton.
  - unfold unique_user_ids. simpl. apply NoDup_cons. split.
    + intros Hin. apply list_elem_of_singleton in Hin. discriminate Hin.
    + apply NoDup_singleton.
Defined.

Lemma lobby_unique_emails : unique_emails lobby.
Proof.
  unfold unique_emails. simpl. apply NoDup_cons. split.
  - intros Hin. apply list_elem_of_singleton in Hin. discriminate Hin.
  - apply NoDup_singleton.
Defined.

Lemma carol_is_new : "carol@campus.edu" ∉ User.email <$> users lobby.
Proof.
  simpl. intros Hin. apply elem_of_cons in Hin as [Hin|Hin];
    [discriminate Hin|].
  apply list_elem_of_singleton in Hin. discriminate Hin.
Defined.

Lemma register_then_login_witness :
  let r1 := post [("name", "Carol"); ("email", "carol@campus.edu");
                  ("password", "pw")] [] in
  let r2 := post [("email", "carol@campus.edu"); ("password", "pw")] [] in
  let w1 := (respond (register toy_hashpw quiet_env r1) lobby).2 in
  let r := respond (login toy_check r2) w1 in
  let u := User.mk (next_rowid (User.id <$> users lobby)) "Carol"
                   "carol@campus.edu" "$2b$pw" in
  users w1 = (users lobby ++ [u])%list
  ∧ r.1 = Redirect ep_awareness
  ∧ current_user r.2 = Some u.
Proof.
  apply (register_then_login toy_hashpw toy_check quiet_env lobby
           (post [("name", "Carol"); ("email", "carol@campus.edu");
                  ("password", "pw")] [])
           (post [("email", "carol@campus.edu"); ("password", "pw")] [])
           "Carol" "carol@campus.edu" "pw" "$2b$pw");
    first [reflexivity | exact toy_bcrypt_sound | exact lobby_unique_emails
          | exact carol_is_new].
Defined.

(** ** Complaints that are turned down *)

(** X6: a complaint submitted without the [details] field is answered
    with 400 before anything else happens: the attached file is not
    written, no row is stored and no mail is sent. *)
Theorem complaint_missing_details (env : Env) (w : World) (request : Request)
    (user : User.t) :
  method request = POST →
  current_user w = Some user →
  form request !! "details" = None →
  respond (complaint env request) w = (Abort 400, w).
Proof.
  intros Hm Hcu Hd. unfold respond, complaint, login_required. mrun.
  rewrite Hcu. simpl. rewrite Hm. mrun. by rewrite Hd.
Qed.

Lemma complaint_missing_details_witness :
  respond (complaint quiet_env
             (post [("subject", "Ragging")] [("proof_file", photo)]))
          campus
  = (Abort 400, campus).
Proof.
  apply (complaint_missing_details quiet_env campus
           (post [("subject", "Ragging")] [("proof_file", photo)]) alice);
    reflexivity.
Defined.

(** X7: when the form has [details] but no [subject], the upload is
    written first and the INSERT is refused afterwards: the request
    ends in an uncaught IntegrityError with the file on disk, no
    complaint stored, nothing flashed and no mail attempted. *)
Theorem complaint_orphan_upload (env : Env) (w : World) (request : Request)
    (user : User.t) (d : string) (file : FileStorage) :
  method request = POST →
  current_user w = Some user →
  form request !! "details" = Some d →
  form request !! "subject" = None →
  files request !! "proof_file" = Some file →
  filename file ≠ EmptyString →
  fs_ok env →
  let r := respond (complaint env request) w in
  r.1 = Uncaught "IntegrityError"
                 "NOT NULL constraint failed: complaint.subject"
  ∧ complaints r.2 = complaints w
  ∧ flashes r.2 = flashes w
  ∧ trace r.2
    = (trace w
       ++ [(Makedirs "static/uploads", None);
           (Save ("static/uploads/" +:+ filename file) (stream file),
            None)])%list.
Proof.
  intros Hm Hcu Hd Hs Hfile Hname Hfs. simpl.
  pose proof (handle_upload_saved env request w file Hfs Hfile Hname) as Hrun.
  rewrite (complaint_post_no_subject env w _ request user d _
             Hm Hcu Hd Hs Hrun). done.
Qed.

Lemma complaint_orphan_upload_witness :
  let r := respond (complaint quiet_env
                      (post [("details", "In the hostel")]
                            [("proof_file", photo)]))
                   campus in
  r.1 = Uncaught "IntegrityError"
                 "NOT NULL constraint failed: complaint.subject"
  ∧ complaints r.2 = complaints campus
  ∧ flashes r.2 = flashes campus
  ∧ trace r.2
    = (trace campus
       ++ [(Makedirs "static/uploads", None);
           (Save ("static/uploads/" +:+ filename photo) (stream photo),
            None)])%list.
Proof.
  apply (complaint_orphan_upload quiet_env campus
           (post [("details", "In the hostel")] [("proof_file", photo)])
           alice "In the hostel" photo);
    first [reflexivity | exact fs_ok_quiet | discriminate].
Defined.

(** X8: when writing the upload raises, the request ends in an uncaught
    error at that point: no complaint is stored, nothing is flashed and
    no mail is attempted, whatever else the form carries. *)
Theorem complaint_save_fails (env : Env) (w : World) (request : Request)
    (user : User.t) (d e : string) (file : FileStorage) :
  method request = POST →
  current_user w = Some user →
  form request !! "details" = Some d →
  files request !! "proof_file" = Some file →
  filename file ≠ EmptyString →
  raises env (Makedirs "static/uploads") = None →
  raises env (Save ("static/uploads/" +:+ filename file) (stream file))
  = Some e →
  let r := respond (complaint env request) w in
  r.1 = Uncaught "Exception" e
  ∧ complaints r.2 = complaints w
  ∧ flashes r.2 = flashes w
  ∧ trace r.2
    = (trace w
       ++ [(Makedirs "static/uploads", None);
           (Save ("static/uploads/" +:+ filename file) (stream file),
            Some e)])%list.
Proof.
  intros Hm Hcu Hd Hfile Hname Hmk Hsv. simpl.
  unfold respond, complaint, login_required. mrun. rewrite Hcu. simpl.
  rewrite Hm. mrun. rewrite Hd. simpl.
  unfold handle_upload, perform. rewrite Hfile.
  rewrite bool_decide_eq_true_2 by done. mrun.
  change (path_join "static" "uploads") with "static/uploads".
  change (path_join "static" ("uploads/" +:+ filename file))
    with ("static/uploads/" +:+ filename file).
  rewrite Hmk. simpl. rewrite Hsv. simpl. by rewrite <-app_assoc.
Qed.

Lemma complaint_save_fails_witness :
  let r := respond (complaint disk_full_env
                      (post [("subject", "Ragging");
                             ("details", "In the hostel")]
                            [("proof_file", photo)]))
                   campus in
  r.1 = Uncaught "Exception" "No space left on device"
  ∧ complaints r.2 = complaints campus
  ∧ flashes r.2 = flashes campus
  ∧ trace r.2
    = (trace campus
       ++ [(Makedirs "static/uploads", None);
           (Save ("static/uploads/" +:+ filename photo) (stream photo),
            Some "No space left on device")])%list.
Proof.
  apply (complaint_save_fails disk_full_env campus
           (post [("subject", "Ragging"); ("details", "In the hostel")]
                 [("proof_file", photo)])
           alice "In the hostel" "No space left on device" photo);
    first [reflexivity | discriminate].
Defined.

(** ** What a stored complaint and its notification say *)

(** The session does not reach the upload. *)
Lemma handle_upload_session (env : Env) (request : Request) (w : World)
    (s : option Z) :
  handle_upload env request (set_session s w)
  = ((handle_upload env request w).1,
     set_session s (handle_upload env request w).2).
Proof.
  unfold handle_upload, perform.
  destruct (files request !! "proof_file") as [file|]; mrun; [|done].
  case_bool_decide; mrun; [|done].
  destruct (raises env (Makedirs _)); simpl; [done|].
  by destruct (raises env (Save _ _)).
Qed.

(** X9: an anonymous complaint carries nothing of its author: whichever
    of two users submits the same form with the [anonymous] field set,
    the response, the stored row, the flashed messages and every call
    that leaves the process, the mail to the administrator included,
    are the same. *)
Theorem anonymous_complaint_hides_author (env : Env) (w : World)
    (request : Request) (s1 s2 : option Z) (u1 u2 : User.t) :
  current_user (set_session s1 w) = Some u1 →
  current_user (set_session s2 w) = Some u2 →
  py_bool (form_get request "anonymous") = true →
  let r1 := respond (complaint env request) (set_session s1 w) in
  let r2 := respond (complaint env request) (set_session s2 w) in
  r1.1 = r2.1 ∧ same_but_session r1.2 r2.2.
Proof.
  intros Hu1 Hu2 Hanon. unfold same_but_session. simpl.
  unfold respond, complaint, login_required. mrun. rewrite Hu1, Hu2. simpl.
  destruct (method request); mrun; [done|].
  destruct (form request !! "details") as [d|]; simpl; [|done].
  rewrite !handle_upload_session.
  destruct (handle_upload env request w) as [[e|pf] w1]; simpl;
    [by destruct e|].
  unfold add_complaint. mrun.
  destruct (form request !! "subject") as [s|]; simpl; [|done].
  unfold form_get in Hanon. rewrite Hanon.
  unfold try_except, notify_admin, notify_failed, perform. mrun.
  match goal with |- context [raises env ?x] => destruct (raises env x) end;
    done.
Qed.

Lemma anonymous_complaint_hides_author_witness :
  let request := post [("subject", "Ragging"); ("details", "In the hostel");
                       ("anonymous", "on")] [("proof_file", photo)] in
  let r1 := respond (complaint quiet_env request)
                    (set_session (Some 1) lobby) in
  let r2 := respond (complaint quiet_env request)
                    (set_session (Some 2) lobby) in
  r1.1 = r2.1 ∧ same_but_session r1.2 r2.2.
Proof.
  apply (anonymous_complaint_hides_author quiet_env lobby
           (post [("subject", "Ragging"); ("details", "In the hostel");
                  ("anonymous", "on")] [("proof_file", photo)])
           (Some 1) (Some 2) alice bob); reflexivity.
Defined.

(** X10: the notification goes to the one address [ADMIN_EMAIL] from
    [MAIL_DEFAULT_SENDER], and its subject quotes the [severity] field
    as submitted: when the field is absent the subject reads
    "Severity: None" although the stored row has severity "Medium". *)
Theorem notification_quotes_form_severity (env : Env) (w : World)
    (request : Request) (user : User.t) (s d : string) :
  method request = POST →
  current_user w = Some user →
  form request !! "details" = Some d →
  form request !! "subject" = Some s →
  fs_ok env →
  let r := respond (complaint env request) w in
  (∃ body out,
     (Send ("üö® New Complaint (Severity: " +:+ py_str (form request !! "severity") +:+ ")")
           (MAIL_DEFAULT_SENDER env) [ADMIN_EMAIL env] body, out)
       ∈ trace r.2)
  ∧ (form request !! "severity" = None →
     py_str (form request !! "severity") = "None"
     ∧ ∃ c, complaints r.2 = (complaints w ++ [c])%list
            ∧ Complaint.severity c = Some "Medium").
Proof.
  intros Hm Hcu Hd Hs Hfs. simpl. split.
  - pose proof (handle_upload_ok env request w Hfs) as Hok.
    unfold respond, complaint, login_required. mrun. rewrite Hcu. simpl.
    rewrite Hm. mrun. rewrite Hd. simpl.
    destruct (handle_upload env request w) as [r w1]. simpl in Hok.
    subst r. simpl.
    unfold add_complaint. mrun. rewrite Hs. simpl.
    unfold try_except, notify_admin, notify_failed, perform. mrun.
    match goal with |- context [raises env ?x] => destruct (raises env x) end;
      simpl; eexists _, _; rewrite !elem_of_app.
    + do 3 left. right. left.
    + left. right. left.
  - intros Hsev. split; [by rewrite Hsev|].
    pose proof (complaint_store env w request) as Hstore.
    unfold complaint_stored in Hstore. rewrite Hcu, Hm, Hd, Hs in Hstore.
    rewrite (handle_upload_ok env request w Hfs) in Hstore.
    eexists. split; [exact Hstore|].
    unfold complaint_row, form_get. simpl. by rewrite Hsev.
Qed.

Lemma notification_quotes_form_severity_witness :
  let request := post [("subject", "Ragging"); ("details", "In the hostel")]
                      [] in
  let r := respond (complaint quiet_env request) campus in
  (∃ body out,
     (Send ("üö® New Complaint (Severity: " +:+ py_str (form request !! "severity") +:+ ")")
           (MAIL_DEFAULT_SENDER quiet_env) [ADMIN_EMAIL quiet_env] body, out)
       ∈ trace r.2)
  ∧ (form request !! "severity" = None →
     py_str (form request !! "severity") = "None"
     ∧ ∃ c, complaints r.2 = (complaints campus ++ [c])%list
            ∧ Complaint.severity c = Some "Medium").
Proof.
  apply (notification_quotes_form_severity quiet_env campus
           (post [("subject", "Ragging"); ("details", "In the hostel")] [])
           alice "Ragging" "In the hostel");
    first [reflexivity | exact fs_ok_quiet].
Defined.

(** ** Tracking *)

Lemma track_run (w : World) (n : Z) (user : User.t) :
  current_user w = Some user →
  respond_page (track n) w
  = match first (filter (λ c, Complaint.id c = n) (complaints w)) with
    | Some c => (Page "track.html" c, w)
    | None => (Other (Abort 404), w)
    end.
Proof.
  intros Hcu. unfold respond_page, track, login_required_page. mrun.
  rewrite Hcu. simpl. by destruct (first _).
Qed.

(** [/complaint] touches the complaint table, the flashed messages and
    the trace only. *)
Lemma complaint_frame (env : Env) (w : World) (request : Request) :
  let r := respond (complaint env request) w in
  users r.2 = users w ∧ polls_table r.2 = polls_table w
  ∧ votes r.2 = votes w ∧ session r.2 = session w.
Proof.
  simpl. unfold respond, complaint, login_required. mrun.
  destruct (current_user w); simpl; [|done].
  destruct (method request); mrun; [done|].
  destruct (form request !! "details"); simpl; [|done].
  destruct (handle_upload_frame env request w)
    as (Hu & _ & Hp & Hv & Hs & _).
  destruct (handle_upload env request w) as [[e|pf] w1]; simpl in *;
    [by destruct e|].
  unfold add_complaint. mrun.
  destruct (form request !! "subject"); simpl; [|done].
  unfold try_except, notify_admin, notify_failed, perform. mrun.
  match goal with |- context [raises env ?x] => destruct (raises env x) end;
    done.
Qed.

(** X11: the redirect that ends a successful complaint submission leads
    to the complaint just stored: the tracking page for the id in the
    redirect shows the new row. *)
Theorem complaint_then_track (env : Env) (w : World) (request : Request)
    (user : User.t) (s d : string) :
  method request = POST →
  current_user w = Some user →
  form request !! "details" = Some d →
  form request !! "subject" = Some s →
  fs_ok env →
  let r := respond (complaint env request) w in
  ∃ c, r.1 = Redirect (ep_track (Complaint.id c))
       ∧ complaints r.2 = (complaints w ++ [c])%list
       ∧ respond_page (track (Complaint.id c)) r.2
         = (Page "track.html" c, r.2).
Proof.
  intros Hm Hcu Hd Hs Hfs. simpl.
  pose proof (handle_upload_ok env request w Hfs) as Hok.
  destruct (handle_upload_frame env request w) as (Hu & _ & _ & _ & Hse & _).
  destruct (handle_upload env request w) as [r0 w1] eqn:Hrun.
  simpl in *. subst r0.
  destruct (complaint_post env w w1 request user s d Hm Hcu Hd Hs Hrun)
    as (w' & m & post & Hresp & Hc & _).
  remember (complaint_row env w request user s d) as c eqn:Hrow.
  exists c. rewrite Hresp. cbn [fst snd]. repeat (split; [done|]).
  assert (current_user w' = Some user) as Hcu'.
  { destruct (complaint_frame env w request) as (Hu' & _ & _ & Hs').
    rewrite Hresp in Hu', Hs'. simpl in Hu', Hs'.
    unfold current_user, load_user in *. by rewrite Hu', Hs'. }
  rewrite (track_run w' _ user) by done. rewrite Hc.
  rewrite (first_by_fresh_id Complaint.id (complaints w) c); [done|].
  by rewrite Hrow.
Qed.

Lemma complaint_then_track_witness :
  let request := post [("subject", "Ragging"); ("details", "In the hostel")]
                      [("proof_file", photo)] in
  let r := respond (complaint quiet_env request) campus in
  ∃ c, r.1 = Redirect (ep_track (Complaint.id c))
       ∧ complaints r.2 = (complaints campus ++ [c])%list
       ∧ respond_page (track (Complaint.id c)) r.2
         = (Page "track.html" c, r.2).
Proof.
  apply (complaint_then_track quiet_env campus
           (post [("subject", "Ragging"); ("details", "In the hostel")]
                 [("proof_file", photo)])
           alice "Ragging" "In the hostel");
    first [reflexivity | exact fs_ok_quiet].
Defined.

(** X12: the tracking page has no owner check: every logged-in user is
    shown any stored complaint by its id, another user's and an
    anonymous one alike, and the request changes nothing. *)
Theorem track_shows_any_complaint (w : World) (user : User.t)
    (c : Complaint.t) :
  current_user w = Some user →
  NoDup (Complaint.id <$> complaints w) →
  c ∈ complaints w →
  respond_page (track (Complaint.id c)) w = (Page "track.html" c, w).
Proof.
  intros Hcu Hnd Hc. rewrite (track_run w _ user) by done.
  assert (first (filter (λ c', Complaint.id c' = Complaint.id c)
                        (complaints w)) = Some c) as ->; [|done].
  unfold first. induction (complaints w) as [|c0 cs IH].
  - by apply elem_of_nil in Hc.
  - rewrite fmap_cons in Hnd. apply NoDup_cons in Hnd as [Hfresh Hnd].
    rewrite filter_cons. apply elem_of_cons in Hc as [<-|Hc].
    + by rewrite decide_True.
    + rewrite decide_False; [by apply IH|].
      intros Heq. apply Hfresh. rewrite Heq. by apply list_elem_of_fmap_2.
Qed.


Lemma track_shows_any_complaint_witness :
  respond_page (track (Complaint.id bobs_complaint)) office
  = (Page "track.html" bobs_complaint, office).
Proof.
  apply (track_shows_any_complaint office alice bobs_complaint).
  - reflexivity.
  - simpl. apply NoDup_singleton.
  - simpl. left.
Defined.


(** ** Polls *)

Section Polls.

Variable integer_affinity : string → sqlval.

Lemma polls_needs_login (w : World) (request : Request) :
  current_user w = None →
  respond (polls integer_affinity request) w
  = (Redirect ep_login,
     set_flashes
       (flashes w ++ [("message", "Please log in to access this page.")]) w).
Proof. apply login_required_anonymous. Qed.

(** Every way a request to [/polls] by a logged-in user can end. *)
Lemma polls_cases (w : World) (request : Request) (user : User.t) :
  current_user w = Some user →
  let r := respond (polls integer_affinity request) w in
  users r.2 = users w ∧ complaints r.2 = complaints w
  ∧ session r.2 = session w
  ∧ (polls_table w = [] → polls_table r.2 = [sample_poll])
  ∧ (polls_table w ≠ [] → polls_table r.2 = polls_table w)
  ∧ (method request = GET →
     r.1 = RenderPolls (polls_table r.2)
     ∧ votes r.2 = votes w ∧ flashes r.2 = flashes w)
  ∧ (method request = POST →
     (form request !! "poll_id" = None ∨ form request !! "option" = None) →
     r.1 = Abort 400 ∧ votes r.2 = votes w ∧ flashes r.2 = flashes w)
  ∧ (votes r.2 = votes w
     ∨ ∃ v, votes r.2 = (votes w ++ [v])%list
            ∧ Vote.user_id v = User.id user
            ∧ ¬ has_voted (Vote.poll_id v) (Vote.user_id v) w).
Proof.
  intros Hcu.
  assert (∀ pid,
    is_Some (first (votes_by (integer_affinity pid) (User.id user) w)) ∨
    (first (votes_by (integer_affinity pid) (User.id user) w) = None
     ∧ ¬ has_voted (integer_affinity pid) (User.id user) w)) as Hdec.
  { intros pid. destruct (first _) eqn:Hf; [by left|right].
    split; [done|]. rewrite has_voted_first, Hf. by intros [? ?]. }
  simpl. unfold respond, polls, login_required, add_poll, add_vote. mrun.
  rewrite Hcu. simpl.
  destruct (polls_table w) as [|p ps] eqn:Hp; simpl;
    destruct (method request); mrun; rewrite ?Hp; simpl.
  all: try (repeat split; try done; eauto; fail).
  all: destruct (form request !! "poll_id") as [pid|]; simpl.
  all: try (repeat split; try done; eauto; fail).
  all: destruct (form request !! "option") as [opt|]; simpl.
  all: try (repeat split; try done; eauto; fail).
  all: destruct (Hdec pid) as [[v0 Hf]|[Hf Hnew]].
  all: unfold votes_by in Hf |- *; simpl; rewrite Hf; simpl.
  all: repeat split; try done.
  all: try match goal with H : _ ∨ _ |- _ => by destruct H end.
  all: eauto 6.
Qed.

(** X14: [/polls] creates the sample poll exactly when a logged-in user
    finds the poll table empty, and never otherwise, so requests never
    pile up polls; a GET lists the whole table and stores no vote. *)
Theorem polls_sample_created_once (w : World) (r1 r2 : Request)
    (user : User.t) :
  current_user w = Some user →
  let a := respond (polls integer_affinity r1) w in
  let b := respond (polls integer_affinity r2) a.2 in
  (polls_table w = [] → polls_table a.2 = [sample_poll])
  ∧ (polls_table w ≠ [] → polls_table a.2 = polls_table w)
  ∧ polls_table b.2 = polls_table a.2
  ∧ (method r1 = GET →
     a.1 = RenderPolls (polls_table a.2) ∧ votes a.2 = votes w).
Proof.
  intros Hcu. simpl.
  destruct (polls_cases w r1 user Hcu)
    as (Hu & _ & Hs & Hnil & Hne & Hget & _).
  assert (current_user (respond (polls integer_affinity r1) w).2 = Some user)
    as Hcu'.
  { unfold current_user, load_user in *. by rewrite Hu, Hs. }
  destruct (polls_cases _ r2 user Hcu') as (_ & _ & _ & _ & Hne' & _).
  repeat split; try done; try (by apply Hget).
  apply Hne'. destruct (polls_table w) as [|p ps] eqn:Hp.
  - by rewrite Hnil.
  - by rewrite Hne.
Qed.


(** X16: [/polls] keeps the vote table free of two rows with the same
    (poll, user) pair, whatever the request, as long as requests run
    one after another. *)
Theorem polls_keeps_one_vote_each (w : World) (request : Request) :
  one_vote_each w →
  one_vote_each (respond (polls integer_affinity request) w).2.
Proof.
  intros Hone. destruct (current_user w) as [user|] eqn:Hcu.
  - destruct (polls_cases w request user Hcu)
      as (_ & _ & _ & _ & _ & _ & _ & [Hv|(v & Hv & _ & Hnew)]).
    + unfold one_vote_each. by rewrite Hv.
    + unfold one_vote_each in *. rewrite Hv, fmap_app.
      apply NoDup_app. repeat split; [done| |apply NoDup_singleton].
      intros k Hk Hin. apply list_elem_of_singleton in Hin. subst k.
      apply list_elem_of_fmap in Hk as (v' & Hkey & Hv').
      apply Hnew. exists v'. unfold vote_key in Hkey.
      by simplify_eq.
  - by rewrite polls_needs_login.
Qed.

(** X17: a POST to [/polls] without [poll_id] or [option] is answered
    with 400 and stores no vote. *)
Theorem vote_missing_field (w : World) (request : Request) (user : User.t) :
  current_user w = Some user →
  method request = POST →
  (form request !! "poll_id" = None ∨ form request !! "option" = None) →
  let r := respond (polls integer_affinity request) w in
  r.1 = Abort 400 ∧ votes r.2 = votes w ∧ flashes r.2 = flashes w.
Proof.
  intros Hcu Hm Hmiss.
  destruct (polls_cases w request user Hcu)
    as (_ & _ & _ & _ & _ & _ & H400 & _).
  by apply H400.
Qed.

(** X18: the vote handler does not ask whether the poll exists: a vote
    for an id that no poll has is stored all the same, and the results
    page of that id stays a 404. *)
Theorem vote_for_missing_poll (w : World) (request : Request)
    (user : User.t) (pid opt : string) (n : Z) :
  method request = POST →
  current_user w = Some user →
  form request !! "poll_id" = Some pid →
  form request !! "option" = Some opt →
  integer_affinity pid = SqlInt n →
  polls_table w ≠ [] →
  n ∉ Poll.id <$> polls_table w →
  ¬ has_voted (SqlInt n) (User.id user) w →
  let r := respond (polls integer_affinity request) w in
  (∃ v, votes r.2 = (votes w ++ [v])%list
        ∧ Vote.poll_id v = SqlInt n ∧ Vote.option v = opt)
  ∧ respond (poll_results n) r.2 = (Abort 404, r.2).
Proof.
  intros Hm Hcu Hpid Hopt Haff Hne Hn Hnew. simpl.
  destruct (polls_post integer_affinity w request user pid opt
              Hm Hcu Hpid Hopt)
    as (w' & -> & Hu & _ & Hs & Hp & Hcase).
  cbn [fst snd]. rewrite Haff in Hcase.
  rewrite has_voted_first in Hnew.
  destruct (first (votes_by _ _ w)) as [v0|]; [by destruct Hnew|].
  destruct Hcase as [Hvotes _]. split; [rewrite Hvotes; eauto|].
  unfold respond, poll_results, login_required. mrun.
  assert (current_user w' = Some user) as ->.
  { unfold current_user, load_user in *. by rewrite Hu, Hs. }
  simpl. rewrite (Hp Hne).
  assert (first (filter (λ p, Poll.id p = n) (polls_table w)) = None) as ->;
    [|done].
  apply first_filter_None. intros p Hin Heq. apply Hn. rewrite <-Heq.
  by apply list_elem_of_fmap_2.
Qed.

(** X19: a vote stored for one poll leaves the results page of every
    other poll as it was. *)
Theorem vote_leaves_other_polls (w : World) (request : Request)
    (user : User.t) (pid opt : string) (n : Z) (poll : Poll.t) :
  method request = POST →
  current_user w = Some user →
  form request !! "poll_id" = Some pid →
  form request !! "option" = Some opt →
  integer_affinity pid ≠ SqlInt n →
  first (filter (λ p, Poll.id p = n) (polls_table w)) = Some poll →
  let r := respond (polls integer_affinity request) w in
  (respond (poll_results n) r.2).1 = (respond (poll_results n) w).1.
Proof.
  intros Hm Hcu Hpid Hopt Hother Hpoll. simpl.
  destruct (polls_post integer_affinity w request user pid opt
              Hm Hcu Hpid Hopt)
    as (w' & -> & Hu & _ & Hs & Hp & Hcase).
  cbn [fst snd].
  assert (polls_table w' = polls_table w) as Hp'.
  { apply Hp. intros Hnil. by rewrite Hnil in Hpoll. }
  rewrite (poll_results_run w n poll user) by done.
  rewrite (poll_results_run w' n poll user).
  - simpl. do 2 f_equal.
    destruct (first (votes_by _ _ w)); destruct Hcase as [-> _]; [done|].
    unfold votes_of_poll. rewrite filter_app, filter_cons.
    rewrite decide_False by done. by rewrite app_nil_r.
  - unfold current_user, load_user in *. by rewrite Hu, Hs.
  - by rewrite Hp'.
Qed.

End Polls.

(** ** The results page *)


(** X21: the counts do not depend on the order in which the database
    returns the vote rows. *)
Theorem tally_order_irrelevant (poll : Poll.t) (vs vs' : list Vote.t) :
  vs ≡ₚ vs' → tally poll vs = tally poll vs'.
Proof.
  intros Hperm. apply map_eq. intros o. rewrite !tally_lookup.
  case_decide; [|done]. f_equal. unfold count_option. f_equal.
  apply Permutation_length. by rewrite Hperm.
Qed.

(** X22: the counts on a results page never add up to more than the
    number of rows counted, and to exactly that number when every row
    names one of the poll's options. *)
Theorem tally_sum_bounds (poll : Poll.t) (vs : list Vote.t) :
  (0 ≤ sum_counts (tally poll vs) ≤ Z.of_nat (length vs))%Z
  ∧ ((∀ v, v ∈ vs → Vote.option v ∈ poll_options poll) →
     sum_counts (tally poll vs) = Z.of_nat (length vs)).
Proof.
  rewrite tally_sum. unfold count_listed. split.
  - split; [lia|]. apply inj_le, length_filter.
  - intros Hall. do 2 f_equal. induction vs as [|v vs IH]; [done|].
    rewrite filter_cons, decide_True by (apply Hall; left).
    f_equal. apply IH. intros v' Hv'. apply Hall. by right.
Qed.

Lemma polls_sample_created_once_witness :
  let a := respond (polls toy_affinity get_request) fresh_campus in
  let b := respond (polls toy_affinity get_request) a.2 in
  (polls_table fresh_campus = [] → polls_table a.2 = [sample_poll])
  ∧ (polls_table fresh_campus ≠ [] →
     polls_table a.2 = polls_table fresh_campus)
  ∧ polls_table b.2 = polls_table a.2
  ∧ (method get_request = GET →
     a.1 = RenderPolls (polls_table a.2) ∧ votes a.2 = votes fresh_campus).
Proof.
  apply (polls_sample_created_once toy_affinity fresh_campus
           get_request get_request alice).
  reflexivity.
Defined.


Lemma polls_keeps_one_vote_each_witness :
  one_vote_each
    (respond (polls toy_affinity
                (post [("poll_id", "1"); ("option", "Not sure")] []))
             campus_after_abstain).2.
Proof.
  apply (polls_keeps_one_vote_each toy_affinity campus_after_abstain
           (post [("poll_id", "1"); ("option", "Not sure")] [])).
  unfold one_vote_each. vm_compute. apply NoDup_singleton.
Defined.

Lemma vote_missing_field_witness :
  let r := respond (polls toy_affinity (post [("poll_id", "1")] []))
                   campus in
  r.1 = Abort 400 ∧ votes r.2 = votes campus ∧ flashes r.2 = flashes campus.
Proof.
  apply (vote_missing_field toy_affinity campus (post [("poll_id", "1")] [])
           alice); first [reflexivity | right; reflexivity].
Defined.

Lemma alice_not_voted_2 : ¬ has_voted (SqlInt 2) (User.id alice) campus.
Proof. intros (v & Hv & _). simpl in Hv. by apply elem_of_nil in Hv. Defined.

Lemma vote_for_missing_poll_witness :
  let r := respond (polls toy_affinity
                      (post [("poll_id", "2"); ("option", "Whatever")] []))
                   campus in
  (∃ v, votes r.2 = (votes campus ++ [v])%list
        ∧ Vote.poll_id v = SqlInt 2 ∧ Vote.option v = "Whatever")
  ∧ respond (poll_results 2) r.2 = (Abort 404, r.2).
Proof.
  apply (vote_for_missing_poll toy_affinity campus
           (post [("poll_id", "2"); ("option", "Whatever")] [])
           alice "2" "Whatever" 2);
    first [reflexivity | discriminate | exact alice_not_voted_2 | idtac].
  simpl. intros Hin. apply list_elem_of_singleton in Hin. discriminate Hin.
Defined.

Lemma vote_leaves_other_polls_witness :
  let r := respond (polls toy_affinity
                      (post [("poll_id", "2"); ("option", "Not sure")] []))
                   campus in
  (respond (poll_results 1) r.2).1 = (respond (poll_results 1) campus).1.
Proof.
  apply (vote_leaves_other_polls toy_affinity campus
           (post [("poll_id", "2"); ("option", "Not sure")] [])
           alice "2" "Not sure" 1 sample_poll);
    first [reflexivity | discriminate].
Defined.


Lemma tally_order_irrelevant_witness :
  tally sample_poll [vote_yes; vote_unsure]
  = tally sample_poll [vote_unsure; vote_yes].
Proof.
  apply (tally_order_irrelevant sample_poll
           [vote_yes; vote_unsure] [vote_unsure; vote_yes]).
  apply perm_swap.
Defined.

Lemma tally_sum_bounds_witness :
  (0 ≤ sum_counts (tally sample_poll [vote_yes; vote_unsure])
   ≤ Z.of_nat (length [vote_yes; vote_unsure]))%Z
  ∧ ((∀ v, v ∈ [vote_yes; vote_unsure] →
           Vote.option v ∈ poll_options sample_poll) →
     sum_counts (tally sample_poll [vote_yes; vote_unsure])
     = Z.of_nat (length [vote_yes; vote_unsure])).
Proof. apply (tally_sum_bounds sample_poll [vote_yes; vote_unsure]). Defined.
